(** * IAM policy patch scripts of [src/lambdas/auth-handler]

    A shallow embedding of the statement loop shared by

    - [update-policy.py]            (grants the backdoor secret),
    - [update-telnyx-policy.py]     (grants the Telnyx API key secret),
    - [update-short-urls-policy.py] (grants the short-urls table),

    followed by the properties of the policy patcher that the specification
    states about them.

    What is modelled: everything the scripts do to [policy_doc] between the
    moment it has been parsed and the moment it is serialised again
    ([json.dumps]).  Calling the AWS CLI, scraping its output and the
    URL-decoding of line 12 of [update-policy.py] are outside: the functions
    below take the decoded [policy_doc] and return the value handed to
    [json.dumps], or the way the script stopped instead. *)

From Stdlib Require Import List String Ascii Bool ZArith NArith Lia.
From Stdlib Require Import DecimalString.
Import ListNotations.
Open Scope string_scope.
Open Scope list_scope.

(** ** Values

    The result of [json.loads]: Python [None], [bool], [int], [str], [list]
    and [dict].  A [dict] keeps its insertion order, which is the order
    [json.dumps] writes, so it is an association list; the keys of a
    dictionary built by [json.loads] are distinct, and lookup and update
    below act on the first entry with the key.  Numbers are integers (no
    floats), strings are sequences of characters with code point below 256. *)
Unset Elimination Schemes.
Inductive json : Type :=
| JNull : json
| JBool : bool -> json
| JNum : Z -> json
| JStr : string -> json
| JArr : list json -> json
| JObj : list (string * json) -> json.
Set Elimination Schemes.

Definition obj : Type := list (string * json).

(** ** How a script stops

    An uncaught Python exception (the three kinds that this code can raise),
    or the [sys.exit(1)] that follows the warning "No secretsmanager statement
    found in policy". *)
Inductive py_error : Type :=
| TypeError
| AttributeError
| KeyError
| NoStatementExit.

Inductive result (A : Type) : Type :=
| Ok : A -> result A
| Err : py_error -> result A.
Arguments Ok {A} _.
Arguments Err {A} _.

Definition bind {A B : Type} (r : result A) (k : A -> result B) : result B :=
  match r with
  | Ok a => k a
  | Err e => Err e
  end.

Notation "x <- r ;; k" := (bind r (fun x => k))
  (at level 61, r at next level, right associativity).

(** ** Strings *)
Module PyStr.

(** [needle in s] on two strings. *)
Fixpoint contains (needle s : string) : bool :=
  String.prefix needle s
  || match s with
     | EmptyString => false
     | String _ t => contains needle t
     end.

(** [str.lower] on one character: A-Z, and the upper-case letters of
    Latin-1 (U+00C0 to U+00DE without the multiplication sign). *)
Definition lower_char (c : ascii) : ascii :=
  let n := N_of_ascii c in
  if ((65 <=? n) && (n <=? 90)
      || (192 <=? n) && (n <=? 222) && negb (n =? 215))%N
  then ascii_of_N (n + 32)
  else c.

Fixpoint lower (s : string) : string :=
  match s with
  | EmptyString => EmptyString
  | String c t => String (lower_char c) (lower t)
  end.

Fixpoint mem_char (c : ascii) (s : string) : bool :=
  match s with
  | EmptyString => false
  | String d t => Ascii.eqb c d || mem_char c t
  end.

Definition hex_digit (n : N) : ascii :=
  match String.get (N.to_nat n) "0123456789abcdef" with
  | Some c => c
  | None => "0"%char
  end.

Definition backslash : ascii := ascii_of_N 92.
Definition single_quote : ascii := ascii_of_N 39.
Definition double_quote : ascii := ascii_of_N 34.

Definition escape (c : ascii) : string := String backslash (String c "").

(** One character of [repr] of a string delimited by [quote]: the quote and
    the backslash are escaped, tab, newline and carriage return have their
    letter, and a character that is not printable is written in
    hexadecimal. *)
Definition repr_char (quote c : ascii) : string :=
  let n := N_of_ascii c in
  if Ascii.eqb c quote || Ascii.eqb c backslash then escape c
  else if (n =? 9)%N then escape "t"
  else if (n =? 10)%N then escape "n"
  else if (n =? 13)%N then escape "r"
  else if ((n <? 32) || (n =? 127)
           || (128 <=? n) && (n <=? 160) || (n =? 173))%N
       then String backslash
              (String "x"
                 (String (hex_digit (n / 16)) (String (hex_digit (n mod 16)) "")))
  else String c "".

Fixpoint repr_chars (quote : ascii) (s : string) : string :=
  match s with
  | EmptyString => EmptyString
  | String c t => (repr_char quote c ++ repr_chars quote t)%string
  end.

(** [repr] of a string: single quotes, unless the string has a single
    quote and no double quote. *)
Definition repr (s : string) : string :=
  let quote : ascii :=
    if mem_char single_quote s && negb (mem_char double_quote s)
    then double_quote else single_quote in
  String quote (repr_chars quote s ++ String quote "")%string.

Fixpoint join (sep : string) (l : list string) : string :=
  match l with
  | [] => ""
  | [x] => x
  | x :: rest => (x ++ sep ++ join sep rest)%string
  end.

Definition of_Z (z : Z) : string := NilZero.string_of_int (Z.to_int z).

End PyStr.

(** ** Dictionaries *)

(** [d.get(key)] *)
Fixpoint get (key : string) (d : obj) : option json :=
  match d with
  | [] => None
  | (k, v) :: rest => if String.eqb key k then Some v else get key rest
  end.

(** [d.get(key, default)] *)
Definition get_default (key : string) (default : json) (d : obj) : json :=
  match get key d with
  | Some v => v
  | None => default
  end.

(** [d[key] = v]: an existing key keeps its place, a new key goes last. *)
Fixpoint set (key : string) (v : json) (d : obj) : obj :=
  match d with
  | [] => [(key, v)]
  | (k, w) :: rest =>
      if String.eqb key k then (k, v) :: rest else (k, w) :: set key v rest
  end.

(** The entries of [d] under the other keys, in their order. *)
Definition without (key : string) (d : obj) : obj :=
  filter (fun kv => negb (String.eqb key (fst kv))) d.

(** ** The Python operations the scripts apply to parsed values *)

(** [str(v)] of a value inside a list or dictionary, that is [repr(v)]. *)
Fixpoint py_repr (v : json) : string :=
  match v with
  | JNull => "None"
  | JBool true => "True"
  | JBool false => "False"
  | JNum z => PyStr.of_Z z
  | JStr s => PyStr.repr s
  | JArr l => ("[" ++ PyStr.join ", " (map py_repr l) ++ "]")%string
  | JObj d =>
      ("{" ++ PyStr.join ", "
                (map (fun kv => let '(k, w) := kv in
                                PyStr.repr k ++ ": " ++ py_repr w) d)
           ++ "}")%string
  end.

(** [str(v)] *)
Definition py_str (v : json) : string :=
  match v with
  | JStr s => s
  | _ => py_repr v
  end.

(** [if isinstance(x, str): x = [x]] *)
Definition listify (x : json) : json :=
  match x with
  | JStr _ => JArr [x]
  | _ => x
  end.

(** [s == v] for a string [s]: equal strings, character by character. *)
Definition str_eq (s : string) (v : json) : bool :=
  match v with
  | JStr t => String.eqb s t
  | _ => false
  end.

(** [s in v] for a string [s]: an equal element of a list, a key of a
    dictionary, a substring of a string; the other values are not
    containers. *)
Definition py_in (s : string) (v : json) : result bool :=
  match v with
  | JArr l => Ok (existsb (str_eq s) l)
  | JObj d => Ok (existsb (fun kv => String.eqb s (fst kv)) d)
  | JStr t => Ok (PyStr.contains s t)
  | JNull | JBool _ | JNum _ => Err TypeError
  end.

(** The elements a [for] loop (or a generator) draws from [v]: the elements
    of a list, the keys of a dictionary, the characters of a string. *)
Definition py_iter (v : json) : result (list json) :=
  match v with
  | JArr l => Ok l
  | JObj d => Ok (map (fun kv => JStr (fst kv)) d)
  | JStr t => Ok (map (fun c => JStr (String c "")) (list_ascii_of_string t))
  | JNull | JBool _ | JNum _ => Err TypeError
  end.

(** [v.append(x)]: only a list has the method. *)
Definition py_append (v x : json) : result json :=
  match v with
  | JArr l => Ok (JArr (l ++ [x]))
  | _ => Err AttributeError
  end.

(** [v.get(...)] needs a dictionary. *)
Definition as_dict (v : json) : result obj :=
  match v with
  | JObj d => Ok d
  | _ => Err AttributeError
  end.

(** ** The statement loop

    The loop is the same text in the three scripts, up to the condition that
    recognises the statement ([is_target], applied to [actions]) and the ARN
    that is added ([arn]). *)

(** What the script prints about the policy: "Added ...", "... already in IAM
    policy", "Created new DynamoDB statement ...", or nothing. *)
Inductive message : Type :=
| Added
| AlreadyPresent
| CreatedStatement
| NoMessage.

Section StatementLoop.

Variable is_target : json -> result bool.
Variable arn : string.

(** [actions = statement.get('Action', [])], made a list when a string. *)
Definition actions (statement : obj) : json :=
  listify (get_default "Action" (JArr []) statement).

(** [resources = statement.get('Resource', [])], made a list when a string. *)
Definition resources (statement : obj) : json :=
  listify (get_default "Resource" (JArr []) statement).

(** The condition of the [if] for one element of [Statement]. *)
Definition statement_matches (statement : json) : result bool :=
  d <- as_dict statement ;;
  is_target (actions d).

(** The body of the [if]: the statement after it, and what is printed. *)
Definition ensure_resource (statement : obj) : result (json * message) :=
  present <- py_in arn (resources statement) ;;
  if negb present then
    appended <- py_append (resources statement) (JStr arn) ;;
    Ok (JObj (set "Resource" appended statement), Added)
  else
    Ok (JObj statement, AlreadyPresent).

(** [for statement in ...: ... break].  [None] when the loop ends without
    reaching the [if] body ([found] is still [False]); otherwise the list
    with the statement that was found as the body left it. *)
Fixpoint for_statement (stmts : list json)
  : result (option (list json * message)) :=
  match stmts with
  | [] => Ok None
  | statement :: rest =>
      d <- as_dict statement ;;
      hit <- is_target (actions d) ;;
      if hit then
        r <- ensure_resource d ;;
        Ok (Some (fst r :: rest, snd r))
      else
        r <- for_statement rest ;;
        Ok (option_map (fun r' => (statement :: fst r', snd r')) r)
  end.

(** The loop on [policy_doc.get('Statement', [])].  The statement is changed
    in place in the source; here the changed list is put back under its
    key (the loop changes an element only if it is a dictionary, and then
    [Statement] is a list: [for_statement_found_list] below). *)
Definition scan (policy_doc : json) : result (json * option message) :=
  doc <- as_dict policy_doc ;;
  stmts <- py_iter (get_default "Statement" (JArr []) doc) ;;
  r <- for_statement stmts ;;
  match r with
  | None => Ok (policy_doc, None)
  | Some (stmts', msg) => Ok (JObj (set "Statement" (JArr stmts') doc), Some msg)
  end.

End StatementLoop.

(** ** The three scripts *)

Definition backdoor_arn : string :=
  "arn:aws:secretsmanager:*:*:secret:mobile-app/backdoor-secret-*".
Definition telnyx_arn : string :=
  "arn:aws:secretsmanager:*:*:secret:mobile-app/telnyx-api-key-*".
Definition short_urls_arn : string :=
  "arn:aws:dynamodb:*:*:table/mobile-short-urls".

(** ['secretsmanager:GetSecretValue' in actions] *)
Definition is_secretsmanager (actions : json) : result bool :=
  py_in "secretsmanager:GetSecretValue" actions.

(** [any('dynamodb' in str(action).lower() for action in actions)] *)
Definition is_dynamodb (actions : json) : result bool :=
  elems <- py_iter actions ;;
  Ok (existsb
        (fun action => PyStr.contains "dynamodb" (PyStr.lower (py_str action)))
        elems).

Definition new_statement : json :=
  JObj [ ("Effect", JStr "Allow");
         ("Action", JArr [ JStr "dynamodb:GetItem";
                           JStr "dynamodb:PutItem";
                           JStr "dynamodb:UpdateItem";
                           JStr "dynamodb:DeleteItem";
                           JStr "dynamodb:Query" ]);
         ("Resource", JArr [ JStr "arn:aws:dynamodb:*:*:table/mobile-short-urls" ]) ].

(** [update-policy.py], lines 15 to 36: the loop, then the document is
    printed whether a statement was found or not. *)
Definition update_policy (policy_doc : json) : result (json * message) :=
  r <- scan is_secretsmanager backdoor_arn policy_doc ;;
  match snd r with
  | Some msg => Ok (fst r, msg)
  | None => Ok (fst r, NoMessage)
  end.

(** [update-telnyx-policy.py], lines 53 to 81: the loop, then
    [if not found: ... sys.exit(1)]. *)
Definition update_telnyx_policy (policy_doc : json) : result (json * message) :=
  r <- scan is_secretsmanager telnyx_arn policy_doc ;;
  match snd r with
  | Some msg => Ok (fst r, msg)
  | None => Err NoStatementExit
  end.

(** [update-short-urls-policy.py], lines 53 to 96: the loop, then
    [if not found: ... policy_doc['Statement'].append(new_statement)]. *)
Definition update_short_urls_policy (policy_doc : json) : result (json * message) :=
  r <- scan is_dynamodb short_urls_arn policy_doc ;;
  match snd r with
  | Some msg => Ok (fst r, msg)
  | None =>
      doc <- as_dict policy_doc ;;
      match get "Statement" doc with
      | None => Err KeyError
      | Some stmts =>
          stmts' <- py_append stmts new_statement ;;
          Ok (JObj (set "Statement" stmts' doc), CreatedStatement)
      end
  end.

(** The patcher of the specification is these three scripts; a patch rule is
    the condition, the ARN and what happens when no statement is found. *)
Inductive script : Type :=
| UpdatePolicy
| UpdateTelnyxPolicy
| UpdateShortUrlsPolicy.

Definition run (sc : script) : json -> result (json * message) :=
  match sc with
  | UpdatePolicy => update_policy
  | UpdateTelnyxPolicy => update_telnyx_policy
  | UpdateShortUrlsPolicy => update_short_urls_policy
  end.

Definition rule_match (sc : script) : json -> result bool :=
  match sc with
  | UpdatePolicy | UpdateTelnyxPolicy => is_secretsmanager
  | UpdateShortUrlsPolicy => is_dynamodb
  end.

Definition rule_resource (sc : script) : string :=
  match sc with
  | UpdatePolicy => backdoor_arn
  | UpdateTelnyxPolicy => telnyx_arn
  | UpdateShortUrlsPolicy => short_urls_arn
  end.

(** ** The contract of the specification, read off the scripts *)

(** The [changed] flag: set when the script reports that it added the ARN or
    created a statement. *)
Definition changed (m : message) : bool :=
  match m with
  | Added | CreatedStatement => true
  | AlreadyPresent | NoMessage => false
  end.

(** [apply(document, rule) -> (document', changed)] *)
Definition apply (sc : script) (policy_doc : json) : result (json * bool) :=
  r <- run sc policy_doc ;;
  Ok (fst r, changed (snd r)).

(** What a run prints, without the document. *)
Definition printed (r : result (json * message)) : result message :=
  x <- r ;; Ok (snd x).

(** The statements of a document ([Statement] when it is a list). *)
Definition statements_of (policy_doc : json) : list json :=
  match policy_doc with
  | JObj doc =>
      match get "Statement" doc with
      | Some (JArr stmts) => stmts
      | _ => []
      end
  | _ => []
  end.

(** The fields of a document other than [Statement]. *)
Definition document_frame (policy_doc : json) : json :=
  match policy_doc with
  | JObj doc => JObj (without "Statement" doc)
  | _ => policy_doc
  end.

Definition elements (v : json) : list json :=
  match v with
  | JArr l => l
  | _ => []
  end.

(** The normalised [Action] and [Resource] sequences of a statement. *)
Definition action_list (statement : json) : list json :=
  match statement with
  | JObj d => elements (actions d)
  | _ => []
  end.

Definition resource_list (statement : json) : list json :=
  match statement with
  | JObj d => elements (resources d)
  | _ => []
  end.

(** The fields of a statement other than [Resource], in their order. *)
Definition statement_frame (statement : json) : json :=
  match statement with
  | JObj d => JObj (without "Resource" d)
  | _ => statement
  end.

(** Position of the first statement whose condition holds. *)
Fixpoint first_match (is_target : json -> result bool) (stmts : list json)
  : option nat :=
  match stmts with
  | [] => None
  | statement :: rest =>
      match statement_matches is_target statement with
      | Ok true => Some 0
      | _ => option_map S (first_match is_target rest)
      end
  end.

(** Comparison by exact match: the condition on a list of actions is the
    presence of one fixed name. *)
Definition exact_match (is_target : json -> result bool) : Prop :=
  exists name : string,
    forall l : list json, is_target (JArr l) = Ok (existsb (str_eq name) l).

(** [Statement] is missing, or is not a list. *)
Definition statement_missing_or_not_list (doc : obj) : bool :=
  match get "Statement" doc with
  | Some (JArr _) => false
  | _ => true
  end.

(** [policy_doc.get('Statement', [])] is not a list and the [for] loop
    draws no element from it: the field is missing, the empty string or
    the empty dictionary. *)
Definition statement_iterates_empty (doc : obj) : bool :=
  match get "Statement" doc with
  | None => true
  | Some (JStr s) => String.eqb s ""
  | Some (JObj []) => true
  | _ => false
  end.

(** ** Documents of the scenarios of the specification *)

Definition secret_fields (resource : json) : obj :=
  [ ("Effect", JStr "Allow");
    ("Action", JArr [ JStr "secretsmanager:GetSecretValue" ]);
    ("Resource", resource) ].

Definition logs_statement : json :=
  JObj [ ("Effect", JStr "Allow");
         ("Action", JArr [ JStr "logs:CreateLogGroup"; JStr "logs:PutLogEvents" ]);
         ("Resource", JStr "arn:aws:logs:*:*:*") ].

Definition policy_fields (stmts : list json) : obj :=
  [ ("Version", JStr "2012-10-17"); ("Statement", JArr stmts) ].

Definition foo_arn : string := "arn:aws:secretsmanager:*:*:secret:foo-*".

(** Scenario 1, with a statement about logs in front. *)
Definition scenario1 : json :=
  JObj (policy_fields
          [ logs_statement; JObj (secret_fields (JArr [ JStr foo_arn ])) ]).

Definition scenario1_patched : json :=
  JObj (policy_fields
          [ logs_statement;
            JObj (secret_fields (JArr [ JStr foo_arn; JStr backdoor_arn ])) ]).

(** Scenarios 3 and 4: no statement about DynamoDB or Secrets Manager. *)
Definition scenario3 : json := JObj (policy_fields [ logs_statement ]).

Definition scenario3_patched : json :=
  JObj (policy_fields [ logs_statement; new_statement ]).

(** Scenario 5, the action as a bare string, in a statement that has no
    [Resource]. *)
Definition bare_action_fields : obj :=
  [ ("Effect", JStr "Allow");
    ("Action", JStr "secretsmanager:GetSecretValue") ].

Definition scenario5 : json :=
  JObj (policy_fields [ logs_statement; JObj bare_action_fields ]).

Definition scenario5_patched : json :=
  JObj (policy_fields
          [ logs_statement;
            JObj (bare_action_fields ++ [ ("Resource", JArr [ JStr telnyx_arn ]) ]) ]).

(** ** Finding the JSON object in the output of the AWS CLI

    Lines 26 to 41 of [update-telnyx-policy.py] and of
    [update-short-urls-policy.py], the same text in both. *)
Module PyLines.

Definition newline : ascii := ascii_of_N 10.

(** [str.isspace] on one character: tab to carriage return, the four
    separators U+001C to U+001F, space, U+0085 and U+00A0. *)
Definition isspace (c : ascii) : bool :=
  let n := N_of_ascii c in
  ((9 <=? n) && (n <=? 13) || (28 <=? n) && (n <=? 32)
   || (n =? 133) || (n =? 160))%N.

Fixpoint lstrip (s : string) : string :=
  match s with
  | EmptyString => EmptyString
  | String c t => if isspace c then lstrip t else s
  end.

Fixpoint rstrip (s : string) : string :=
  match s with
  | EmptyString => EmptyString
  | String c t =>
      match rstrip t with
      | EmptyString => if isspace c then EmptyString else String c EmptyString
      | r => String c r
      end
  end.

(** [s.strip()] *)
Definition strip (s : string) : string := rstrip (lstrip s).

(** [s.split('\n')]: one more piece than there are newlines. *)
Fixpoint split (s : string) : list string :=
  match s with
  | EmptyString => [EmptyString]
  | String c t =>
      if Ascii.eqb c newline then EmptyString :: split t
      else match split t with
           | piece :: rest => String c piece :: rest
           | [] => [String c EmptyString]
           end
  end.

(** ['\n'.join(lines)] *)
Definition join (lines : list string) : string :=
  PyStr.join (String newline EmptyString) lines.

(** [l[a:b]] for indices that are not negative. *)
Definition slice {A : Type} (a b : Z) (l : list A) : list A :=
  firstn (Z.to_nat (b - a)) (skipn (Z.to_nat a) l).

(** [line.strip().startswith('{')] and [line.strip() == '}'] *)
Definition opens (line : string) : bool := String.prefix "{" (strip line).
Definition closes (line : string) : bool := String.eqb (strip line) "}".

(** The loop of lines 29 to 34 from index [i] on, with the value that
    [json_start] has on entry: the values of [json_start] and [json_end]
    after it. *)
Fixpoint find_json (i json_start : Z) (output_lines : list string) : Z * Z :=
  match output_lines with
  | [] => (json_start, (-1)%Z)
  | line :: rest =>
      let json_start :=
        if opens line && (json_start =? -1)%Z then i else json_start in
      if negb (json_start =? -1)%Z && closes line
      then (json_start, i)
      else find_json (i + 1)%Z json_start rest
  end.

(** Lines 26 to 41: [json_str], or [None] for the exit after "Could not find
    JSON in output". *)
Definition extract_json (stdout : string) : option string :=
  let output_lines := split stdout in
  let (json_start, json_end) := find_json 0%Z (-1)%Z output_lines in
  if ((json_start =? -1) || (json_end =? -1))%Z then None
  else Some (join (slice json_start (json_end + 1)%Z output_lines)).

End PyLines.

(** ** The scripts from the answer of the CLI on *)

(** [policy_doc = data.get('PolicyDocument', {})] *)
Definition policy_document (data : json) : result json :=
  d <- as_dict data ;;
  Ok (get_default "PolicyDocument" (JObj []) d).

(** [subprocess.CompletedProcess], as far as it is read. *)
Record completed : Type :=
  { returncode : Z;
    stdout : string;
    stderr : string }.

(** How [update-telnyx-policy.py] and [update-short-urls-policy.py] end. *)
Inductive ending : Type :=
| Updated (m : message)
| GetFailed
| NoJsonFound
| ParseError
| PatchStopped (e : py_error)
| UpdateFailed.

(** How [update-policy.py] ends: the document it prints, or an exception. *)
Inductive filter_ending : Type :=
| Printed (policy_doc : json) (m : message)
| Uncaught (e : py_error)
| DecodeFailed.

Section Scripts.

(** [json.loads] ([None] when it raises [JSONDecodeError]), [json.dumps],
    the answer of [aws iam put-role-policy] to a [--policy-document], and
    [json.loads(urllib.parse.unquote(s))] are not part of the repository. *)
Variable json_loads : string -> option json.
Variable json_dumps : json -> string.
Variable put_role_policy : string -> completed.
Variable loads_unquote : string -> option json.

(** Lines 21 to 108 of the two scripts that call the CLI, which differ in
    the patch between line 53 and the comment "Update the policy".  The
    first component is the [policy_json] given to [put-role-policy], when
    the script gets as far as calling it. *)
Definition cli_script (patch : json -> result (json * message))
           (result : completed) : option string * ending :=
  if negb (returncode result =? 0)%Z then (None, GetFailed)
  else
    match PyLines.extract_json (stdout result) with
    | None => (None, NoJsonFound)
    | Some json_str =>
        match json_loads json_str with
        | None => (None, ParseError)
        | Some data =>
            match policy_doc <- policy_document data ;; patch policy_doc with
            | Err e => (None, PatchStopped e)
            | Ok (policy_doc, m) =>
                let policy_json := json_dumps policy_doc in
                let update_result := put_role_policy policy_json in
                if negb (returncode update_result =? 0)%Z
                then (Some policy_json, UpdateFailed)
                else (Some policy_json, Updated m)
            end
        end
    end.

Definition update_telnyx_policy_script : completed -> option string * ending :=
  cli_script update_telnyx_policy.

Definition update_short_urls_policy_script
  : completed -> option string * ending :=
  cli_script update_short_urls_policy.

(** [update-policy.py] from [data], the value read from standard input. *)
Definition update_policy_script (data : json) : filter_ending :=
  match policy_document data with
  | Err e => Uncaught e
  | Ok policy_doc =>
      let decoded :=
        match policy_doc with
        | JStr s => loads_unquote s
        | _ => Some policy_doc
        end in
      match decoded with
      | None => DecodeFailed
      | Some policy_doc =>
          match update_policy policy_doc with
          | Ok (policy_doc, m) => Printed policy_doc m
          | Err e => Uncaught e
          end
      end
  end.

End Scripts.

Definition quoted (s : string) : string :=
  String PyStr.double_quote (s ++ String PyStr.double_quote EmptyString)%string.

(** An output of [aws iam get-role-policy] with a warning in front. *)
Definition sample_lines : list string :=
  [ "InsecureRequestWarning: Unverified HTTPS request is being made";
    "{";
    ("    " ++ quoted "RoleName" ++ ": " ++ quoted "mobile-auth-lambda-role" ++ ",")%string;
    ("    " ++ quoted "PolicyDocument" ++ ": {" ++ quoted "Statement" ++ ": []}")%string;
    "}";
    "" ].

Definition sample_stdout : string := PyLines.join sample_lines.

(** ** Notions used to compare runs *)

(** [s'] is [s], or [s] with [x] appended to its [Resource] list. *)
Definition resource_extended_by (x : string) (s s' : json) : Prop :=
  s' = s
  \/ exists d rs,
       s = JObj d /\ resources d = JArr rs
       /\ s' = JObj (set "Resource" (JArr (rs ++ [JStr x])) d).

(** What the loop prints, without the statements. *)
Definition loop_message (r : result (option (list json * message)))
  : result (option message) :=
  x <- r ;; Ok (option_map snd x).

(** What a script reports after a loop on a [Statement] list that printed
    [r]. *)
Definition report (sc : script) (r : result (option message)) : result message :=
  match r with
  | Err e => Err e
  | Ok (Some m) => Ok m
  | Ok None =>
      match sc with
      | UpdatePolicy => Ok NoMessage
      | UpdateTelnyxPolicy => Err NoStatementExit
      | UpdateShortUrlsPolicy => Ok CreatedStatement
      end
  end.

(** * Properties *)

(** ** Dictionaries *)

Lemma get_set_same (key : string) (v : json) (d : obj) :
  get key (set key v d) = Some v.
Proof.
  induction d as [|[k w] rest IH]; simpl.
  - now rewrite String.eqb_refl.
  - destruct (String.eqb key k) eqn:E; simpl; rewrite E; auto.
Qed.

Lemma get_set_other (key key' : string) (v : json) (d : obj) :
  String.eqb key' key = false ->
  get key' (set key v d) = get key' d.
Proof.
  intros Hne. induction d as [|[k w] rest IH]; simpl.
  - now rewrite Hne.
  - destruct (String.eqb key k) eqn:E; simpl.
    + apply String.eqb_eq in E. subst k. now rewrite Hne.
    + now rewrite IH.
Qed.

Lemma set_set (key : string) (v w : json) (d : obj) :
  set key v (set key w d) = set key v d.
Proof.
  induction d as [|[k u] rest IH]; simpl.
  - now rewrite String.eqb_refl.
  - destruct (String.eqb key k) eqn:E; simpl; rewrite E; congruence.
Qed.

Lemma set_get_same (key : string) (v : json) (d : obj) :
  get key d = Some v -> set key v d = d.
Proof.
  induction d as [|[k u] rest IH]; simpl; [discriminate|].
  destruct (String.eqb key k) eqn:E; intros H.
  - congruence.
  - now rewrite IH.
Qed.

Lemma set_absent (key : string) (v : json) (d : obj) :
  get key d = None -> set key v d = d ++ [(key, v)].
Proof.
  induction d as [|[k u] rest IH]; simpl; [reflexivity|].
  destruct (String.eqb key k) eqn:E; intros H; [discriminate|].
  now rewrite IH.
Qed.

Lemma without_set (key : string) (v : json) (d : obj) :
  without key (set key v d) = without key d.
Proof.
  unfold without. induction d as [|[k u] rest IH]; simpl.
  - now rewrite String.eqb_refl.
  - destruct (String.eqb key k) eqn:E; simpl; rewrite E; simpl; congruence.
Qed.

(** Writing a key that is there keeps the keys and their order. *)
Lemma keys_set_present (key : string) (v w : json) (d : obj) :
  get key d = Some w -> map fst (set key v d) = map fst d.
Proof.
  induction d as [|[k u] rest IH]; simpl; [discriminate|].
  destruct (String.eqb key k) eqn:E; intros H; simpl.
  - reflexivity.
  - now rewrite IH.
Qed.

(** ** Python conversions on examples *)

Example str_of_values :
  py_str (JStr "DynamoDB:GetItem") = "DynamoDB:GetItem"
  /\ py_str (JArr [JStr "dynamodb:GetItem"; JNum (-1); JNull; JBool true])
     = "['dynamodb:GetItem', -1, None, True]"
  /\ py_str (JObj [("Effect", JStr "Allow"); ("Action", JArr [])])
     = "{'Effect': 'Allow', 'Action': []}".
Proof.
  repeat split; vm_compute; reflexivity.
Qed.

Example lower_of_names :
  PyStr.lower "DynamoDB:GetItem*" = "dynamodb:getitem*"
  /\ PyStr.contains "dynamodb" "arn:aws:dynamodb:*:*:table/x" = true
  /\ PyStr.contains "dynamodb" "dynamo-db" = false.
Proof.
  repeat split; vm_compute; reflexivity.
Qed.

(** ** Python membership *)

Lemma str_eq_true (s : string) (v : json) :
  str_eq s v = true <-> v = JStr s.
Proof.
  destruct v; simpl; split; try discriminate; intros H.
  - apply String.eqb_eq in H. now subst.
  - injection H as ->. apply String.eqb_refl.
Qed.

Lemma existsb_str_eq (s : string) (l : list json) :
  existsb (str_eq s) l = true <-> In (JStr s) l.
Proof.
  rewrite existsb_exists. split.
  - intros [v [Hin Heq]]. apply str_eq_true in Heq. now subst.
  - intros Hin. exists (JStr s). split; [assumption|]. now apply str_eq_true.
Qed.

Lemma existsb_str_eq_last (s : string) (l : list json) :
  existsb (str_eq s) (l ++ [JStr s]) = true.
Proof.
  apply existsb_str_eq, in_or_app. right. now left.
Qed.

(** ** The statement loop *)

Tactic Notation "bind_inv" hyp(H) "as" ident(x) ident(E) :=
  match type of H with
  | bind ?r _ = Ok _ =>
      destruct r as [x|] eqn:E; simpl in H; [|discriminate H]
  end.

Section StatementLoopFacts.

Variable is_target : json -> result bool.
Variable arn : string.

#[local] Abbreviation matches := (statement_matches is_target).
#[local] Abbreviation ensure := (ensure_resource arn).
#[local] Abbreviation loop := (for_statement is_target arn).

(** The two ways the [if] body ends. *)
Lemma ensure_resource_cases (d : obj) (s' : json) (m : message) :
  ensure d = Ok (s', m) ->
  (m = AlreadyPresent /\ s' = JObj d /\ py_in arn (resources d) = Ok true)
  \/ (exists rs, m = Added
                 /\ resources d = JArr rs
                 /\ existsb (str_eq arn) rs = false
                 /\ s' = JObj (set "Resource" (JArr (rs ++ [JStr arn])) d)).
Proof.
  unfold ensure_resource. intros H. bind_inv H as present Hin.
  destruct present; simpl in H.
  - left. injection H as <- <-. auto.
  - right. bind_inv H as appended Happ. injection H as <- <-.
    destruct (resources d) as [| | | |rs|] eqn:R; simpl in *; try discriminate.
    injection Happ as <-. injection Hin as Hin. exists rs. auto.
Qed.

Lemma actions_set_resource (v : json) (d : obj) :
  actions (set "Resource" v d) = actions d.
Proof.
  unfold actions, get_default. now rewrite get_set_other.
Qed.

Lemma resources_set_resource (l : list json) (d : obj) :
  resources (set "Resource" (JArr l) d) = JArr l.
Proof.
  unfold resources, get_default. now rewrite get_set_same.
Qed.

(** After the body has run, running it again finds the ARN. *)
Lemma ensure_resource_again (d : obj) (s' : json) (m : message) :
  ensure d = Ok (s', m) ->
  exists d', s' = JObj d' /\ actions d' = actions d
             /\ ensure d' = Ok (s', AlreadyPresent).
Proof.
  intros H. destruct (ensure_resource_cases _ _ _ H)
    as [(-> & -> & Hin) | (rs & -> & Hrs & Hnot & ->)].
  - exists d. repeat split. unfold ensure_resource. now rewrite Hin.
  - eexists. split; [reflexivity|]. split; [apply actions_set_resource|].
    unfold ensure_resource. rewrite resources_set_resource. simpl.
    now rewrite existsb_str_eq_last.
Qed.

(** The loop stops at the first statement whose condition holds, and leaves
    the others alone. *)
Lemma for_statement_found (stmts stmts' : list json) (m : message) :
  loop stmts = Ok (Some (stmts', m)) ->
  exists pre d s' post,
    stmts = pre ++ JObj d :: post
    /\ stmts' = pre ++ s' :: post
    /\ Forall (fun s => matches s = Ok false) pre
    /\ matches (JObj d) = Ok true
    /\ ensure d = Ok (s', m).
Proof.
  revert stmts'. induction stmts as [|s rest IH]; intros stmts' H; simpl in H.
  - discriminate.
  - bind_inv H as d0 Hd0. bind_inv H as hit Hhit.
    destruct s; simpl in Hd0; try discriminate.
    injection Hd0 as ->. destruct hit.
    + bind_inv H as r He. destruct r as [s' m']. injection H as <- <-. simpl.
      exists [], d0, s', rest. repeat split; auto.
    + bind_inv H as r Hrest. destruct r as [[rest' m']|]; [|discriminate].
      simpl in H. injection H as <- <-.
      destruct (IH _ eq_refl) as (pre & d & s' & post & -> & -> & Hpre & Hd & He).
      exists (JObj d0 :: pre), d, s', post. repeat split; auto.
Qed.

Lemma for_statement_not_found (stmts : list json) :
  loop stmts = Ok None <-> Forall (fun s => matches s = Ok false) stmts.
Proof.
  induction stmts as [|s rest IH]; simpl.
  - split; auto.
  - split.
    + intros H. bind_inv H as d0 Hd0. bind_inv H as hit Hhit.
      destruct s; simpl in Hd0; try discriminate. injection Hd0 as ->.
      destruct hit.
      * bind_inv H as r He. discriminate.
      * bind_inv H as r Hrest. destruct r; [discriminate|].
        constructor; [exact Hhit | now apply IH].
    + intros H. inversion H as [|? ? Hs Hrest]; subst.
      unfold statement_matches in Hs.
      destruct (as_dict s); simpl in *; [|discriminate].
      rewrite Hs. simpl. apply IH in Hrest. now rewrite Hrest.
Qed.

Lemma for_statement_at_first_match (pre post : list json) (d : obj) :
  Forall (fun s => matches s = Ok false) pre ->
  matches (JObj d) = Ok true ->
  loop (pre ++ JObj d :: post)
  = r <- ensure d ;; Ok (Some (pre ++ fst r :: post, snd r)).
Proof.
  intros Hpre Hd. induction Hpre as [|s pre Hs Hpre IH]; simpl.
  - unfold statement_matches in Hd. simpl in Hd. now rewrite Hd.
  - unfold statement_matches in Hs.
    destruct (as_dict s); simpl in *; [|discriminate].
    rewrite Hs. simpl. rewrite IH.
    destruct (ensure_resource arn d) as [[s' m]|]; reflexivity.
Qed.

(** The loop reaches the [if] body only on a list. *)
Lemma for_statement_found_list (v : json) (stmts : list json)
      (r : list json * message) :
  py_iter v = Ok stmts ->
  loop stmts = Ok (Some r) ->
  v = JArr stmts.
Proof.
  destruct v; simpl; try discriminate; intros H; injection H as <-.
  - destruct s as [|c t]; simpl; discriminate.
  - reflexivity.
  - destruct l as [|[k w] rest]; simpl; discriminate.
Qed.

End StatementLoopFacts.

(** ** The loop on a document *)

Section ScanFacts.

Variable is_target : json -> result bool.
Variable arn : string.

#[local] Abbreviation matches := (statement_matches is_target).
#[local] Abbreviation ensure := (ensure_resource arn).

Lemma scan_found (policy_doc doc' : json) (m : message) :
  scan is_target arn policy_doc = Ok (doc', Some m) ->
  exists doc pre d s' post,
    policy_doc = JObj doc
    /\ get "Statement" doc = Some (JArr (pre ++ JObj d :: post))
    /\ doc' = JObj (set "Statement" (JArr (pre ++ s' :: post)) doc)
    /\ Forall (fun s => matches s = Ok false) pre
    /\ matches (JObj d) = Ok true
    /\ ensure d = Ok (s', m).
Proof.
  unfold scan. intros H.
  bind_inv H as doc Hdoc. bind_inv H as stmts Hiter.
  bind_inv H as r Hloop. destruct r as [[stmts' m']|]; [|discriminate].
  destruct policy_doc; simpl in Hdoc; try discriminate. injection Hdoc as ->.
  injection H as <- <-.
  pose proof (for_statement_found_list _ _ _ _ _ Hiter Hloop) as Hv.
  destruct (for_statement_found _ _ _ _ _ Hloop)
    as (pre & d & s' & post & -> & -> & Hpre & Hd & He).
  exists doc, pre, d, s', post. repeat split; auto.
  unfold get_default in Hv. destruct (get "Statement" doc) eqn:G.
  - now subst.
  - injection Hv as Hv. now destruct pre.
Qed.

Lemma scan_not_found (policy_doc doc' : json) :
  scan is_target arn policy_doc = Ok (doc', None) ->
  doc' = policy_doc
  /\ exists doc stmts,
       policy_doc = JObj doc
       /\ py_iter (get_default "Statement" (JArr []) doc) = Ok stmts
       /\ Forall (fun s => matches s = Ok false) stmts.
Proof.
  unfold scan. intros H.
  bind_inv H as doc Hdoc. bind_inv H as stmts Hiter.
  bind_inv H as r Hloop. destruct r as [[stmts' m']|]; [discriminate|].
  destruct policy_doc; simpl in Hdoc; try discriminate. injection Hdoc as ->.
  injection H as <-.
  split; [reflexivity|]. exists doc, stmts. repeat split; auto.
  now apply for_statement_not_found in Hloop.
Qed.

Lemma scan_at_first_match (doc : obj) (pre post : list json) (d : obj) :
  get "Statement" doc = Some (JArr (pre ++ JObj d :: post)) ->
  Forall (fun s => matches s = Ok false) pre ->
  matches (JObj d) = Ok true ->
  scan is_target arn (JObj doc)
  = r <- ensure d ;;
    Ok (JObj (set "Statement" (JArr (pre ++ fst r :: post)) doc), Some (snd r)).
Proof.
  intros G Hpre Hd. unfold scan, get_default. simpl. rewrite G. simpl.
  rewrite (for_statement_at_first_match _ _ _ _ _ Hpre Hd).
  destruct (ensure_resource arn d) as [[s' m]|]; reflexivity.
Qed.

Lemma scan_no_match (doc : obj) (stmts : list json) :
  get "Statement" doc = Some (JArr stmts) ->
  Forall (fun s => matches s = Ok false) stmts ->
  scan is_target arn (JObj doc) = Ok (JObj doc, None).
Proof.
  intros G Hall. unfold scan, get_default. simpl. rewrite G. simpl.
  apply for_statement_not_found with (arn := arn) in Hall. now rewrite Hall.
Qed.

(** Running the loop on the document it produced changes nothing. *)
Lemma scan_again (policy_doc doc' : json) (m : message) :
  scan is_target arn policy_doc = Ok (doc', Some m) ->
  scan is_target arn doc' = Ok (doc', Some AlreadyPresent).
Proof.
  intros H.
  destruct (scan_found _ _ _ H)
    as (doc & pre & d & s' & post & -> & G & -> & Hpre & Hd & He).
  destruct (ensure_resource_again _ _ _ _ He) as (d' & -> & Ha & He').
  rewrite (scan_at_first_match _ pre post d').
  - rewrite He'. simpl. now rewrite set_set.
  - apply get_set_same.
  - assumption.
  - unfold statement_matches in *. simpl in *. now rewrite Ha.
Qed.

End ScanFacts.

(** ** The scripts *)

Lemma run_found (sc : script) (policy_doc doc' : json) (m : message) :
  scan (rule_match sc) (rule_resource sc) policy_doc = Ok (doc', Some m) ->
  run sc policy_doc = Ok (doc', m).
Proof.
  intros H.
  destruct sc; simpl in *;
    unfold update_policy, update_telnyx_policy, update_short_urls_policy;
    now rewrite H.
Qed.

(** The three ways a script hands a document on: the loop found a statement;
    [update-policy.py] found none; [update-short-urls-policy.py] found none
    and appended its own. *)
Lemma run_inv (sc : script) (policy_doc doc' : json) (m : message) :
  run sc policy_doc = Ok (doc', m) ->
  scan (rule_match sc) (rule_resource sc) policy_doc = Ok (doc', Some m)
  \/ (sc = UpdatePolicy /\ m = NoMessage /\ doc' = policy_doc
      /\ scan (rule_match sc) (rule_resource sc) policy_doc = Ok (policy_doc, None))
  \/ (sc = UpdateShortUrlsPolicy /\ m = CreatedStatement
      /\ scan (rule_match sc) (rule_resource sc) policy_doc = Ok (policy_doc, None)
      /\ exists doc stmts,
           policy_doc = JObj doc
           /\ get "Statement" doc = Some (JArr stmts)
           /\ doc' = JObj (set "Statement" (JArr (stmts ++ [new_statement])) doc)).
Proof.
  intros H.
  destruct sc; simpl in *;
    unfold update_policy, update_telnyx_policy, update_short_urls_policy in H;
    bind_inv H as r Hscan; destruct r as [doc1 [m1|]]; simpl in H.
  - left. now injection H as <- <-.
  - right. left. injection H as <- <-.
    destruct (scan_not_found _ _ _ _ Hscan) as [-> _]. auto.
  - left. now injection H as <- <-.
  - discriminate.
  - left. now injection H as <- <-.
  - right. right. destruct (scan_not_found _ _ _ _ Hscan) as [-> _].
    bind_inv H as doc Hdoc.
    destruct policy_doc; simpl in Hdoc; try discriminate. injection Hdoc as ->.
    destruct (get "Statement" doc) as [v|] eqn:G; [|discriminate].
    bind_inv H as v' Happ. injection H as <- <-.
    destruct v; simpl in Happ; try discriminate. injection Happ as <-.
    repeat split; auto. exists doc, l. auto.
Qed.

Lemma run_at_first_match (sc : script) (doc : obj) (pre post : list json)
      (d : obj) :
  get "Statement" doc = Some (JArr (pre ++ JObj d :: post)) ->
  Forall (fun s => statement_matches (rule_match sc) s = Ok false) pre ->
  statement_matches (rule_match sc) (JObj d) = Ok true ->
  run sc (JObj doc)
  = r <- ensure_resource (rule_resource sc) d ;;
    Ok (JObj (set "Statement" (JArr (pre ++ fst r :: post)) doc), snd r).
Proof.
  intros G Hpre Hd.
  pose proof (scan_at_first_match _ (rule_resource sc) _ _ _ _ G Hpre Hd) as H.
  destruct (ensure_resource (rule_resource sc) d) as [[s' m]|e] eqn:He;
    simpl in *.
  - now apply run_found.
  - destruct sc; simpl in *;
      unfold update_policy, update_telnyx_policy, update_short_urls_policy;
      now rewrite H.
Qed.

(** The statement that [update-short-urls-policy.py] creates is one that its
    own loop recognises and leaves alone. *)
Lemma new_statement_recognised :
  exists d,
    new_statement = JObj d
    /\ statement_matches is_dynamodb (JObj d) = Ok true
    /\ ensure_resource short_urls_arn d = Ok (JObj d, AlreadyPresent).
Proof.
  eexists. split; [reflexivity|]. split; vm_compute; reflexivity.
Qed.

Lemma py_iter_list (v : json) (stmts l : list json) :
  v = JArr l -> py_iter v = Ok stmts -> stmts = l.
Proof.
  intros -> H. simpl in H. now injection H.
Qed.

(** C1. Idempotence: when a script has produced a document, running the same
    script on that document hands the same document on again, with
    [changed = false]. *)
Theorem apply_idempotent (sc : script) (D D' : json) (c : bool) :
  apply sc D = Ok (D', c) ->
  apply sc D' = Ok (D', false).
Proof.
  unfold apply. intros H. bind_inv H as r Hrun. destruct r as [doc1 m].
  simpl in H. injection H as -> _.
  destruct (run_inv _ _ _ _ Hrun)
    as [Hscan | [(-> & -> & -> & Hscan)
                | (-> & -> & Hscan & doc & stmts & -> & G & ->)]].
  - apply scan_again in Hscan. now rewrite (run_found _ _ _ _ Hscan).
  - now rewrite Hrun.
  - destruct (scan_not_found _ _ _ _ Hscan) as (_ & doc0 & stmts0 & E & Hiter & Hall).
    injection E as <-. unfold get_default in Hiter. rewrite G in Hiter.
    apply (py_iter_list _ _ _ eq_refl) in Hiter. subst stmts0.
    destruct new_statement_recognised as (d & -> & Hd & He).
    rewrite (run_at_first_match UpdateShortUrlsPolicy _ stmts [] d).
    + simpl. rewrite He. simpl. now rewrite set_set.
    + apply get_set_same.
    + exact Hall.
    + exact Hd.
Qed.

Lemma apply_idempotent_witness :
  apply UpdatePolicy scenario1 = Ok (scenario1_patched, true)
  /\ apply UpdatePolicy scenario1_patched = Ok (scenario1_patched, false).
Proof.
  split.
  - vm_compute. reflexivity.
  - apply (apply_idempotent UpdatePolicy scenario1 scenario1_patched true).
    vm_compute. reflexivity.
Defined.

(** The outcome at the first statement whose condition holds, when its
    [Resource] is a list, a string or missing. *)
Lemma apply_at_first_match (sc : script) (doc : obj) (pre post : list json)
      (d : obj) (rs : list json) :
  get "Statement" doc = Some (JArr (pre ++ JObj d :: post)) ->
  Forall (fun s => statement_matches (rule_match sc) s = Ok false) pre ->
  statement_matches (rule_match sc) (JObj d) = Ok true ->
  resources d = JArr rs ->
  apply sc (JObj doc)
  = if existsb (str_eq (rule_resource sc)) rs
    then Ok (JObj doc, false)
    else Ok (JObj (set "Statement"
                     (JArr (pre ++ JObj (set "Resource"
                                           (JArr (rs ++ [JStr (rule_resource sc)])) d)
                                :: post))
                     doc),
             true).
Proof.
  intros G Hpre Hd Hrs. unfold apply.
  rewrite (run_at_first_match sc _ _ _ _ G Hpre Hd).
  unfold ensure_resource. rewrite Hrs. simpl.
  destruct (existsb (str_eq (rule_resource sc)) rs); simpl.
  - now rewrite (set_get_same _ _ _ G).
  - reflexivity.
Qed.

(** C4. The first statement whose actions satisfy the condition is the one
    acted on: if the ARN is in its [Resource] the document comes back as it
    was with [changed = false]; otherwise the ARN is appended at the end of
    that statement's [Resource] sequence and [changed = true]. *)
Theorem first_match_resource_ensured (sc : script) (doc : obj)
        (pre post : list json) (d : obj) (rs : list json) :
  get "Statement" doc = Some (JArr (pre ++ JObj d :: post)) ->
  Forall (fun s => statement_matches (rule_match sc) s = Ok false) pre ->
  statement_matches (rule_match sc) (JObj d) = Ok true ->
  resources d = JArr rs ->
  (In (JStr (rule_resource sc)) rs ->
   apply sc (JObj doc) = Ok (JObj doc, false))
  /\ (~ In (JStr (rule_resource sc)) rs ->
      apply sc (JObj doc)
      = Ok (JObj (set "Statement"
                    (JArr (pre ++ JObj (set "Resource"
                                          (JArr (rs ++ [JStr (rule_resource sc)])) d)
                               :: post))
                    doc),
            true)).
Proof.
  intros G Hpre Hd Hrs.
  rewrite (apply_at_first_match sc _ _ _ _ _ G Hpre Hd Hrs).
  destruct (existsb (str_eq (rule_resource sc)) rs) eqn:E.
  - split; [reflexivity|]. intros Hnot. exfalso. apply Hnot.
    now apply existsb_str_eq.
  - split; [|reflexivity]. intros Hin. apply existsb_str_eq in Hin. congruence.
Qed.

(** C10. A matching statement without a [Resource] field is read as having
    the empty sequence: afterwards its [Resource] is the one-element list with
    the ARN, added as the last field, and [changed = true]. *)
Theorem missing_resource_becomes_singleton (sc : script) (doc : obj)
        (pre post : list json) (d : obj) :
  get "Statement" doc = Some (JArr (pre ++ JObj d :: post)) ->
  Forall (fun s => statement_matches (rule_match sc) s = Ok false) pre ->
  statement_matches (rule_match sc) (JObj d) = Ok true ->
  get "Resource" d = None ->
  let d' := d ++ [("Resource", JArr [JStr (rule_resource sc)])] in
  apply sc (JObj doc)
  = Ok (JObj (set "Statement" (JArr (pre ++ JObj d' :: post)) doc), true)
  /\ get "Resource" d' = Some (JArr [JStr (rule_resource sc)]).
Proof.
  intros G Hpre Hd Hnone d'.
  assert (Hrs : resources d = JArr []).
  { unfold resources, get_default. now rewrite Hnone. }
  rewrite (apply_at_first_match sc _ _ _ _ _ G Hpre Hd Hrs). simpl.
  rewrite (set_absent _ _ _ Hnone). fold d'. split; [reflexivity|].
  unfold d'. rewrite <- (set_absent _ (JArr [JStr (rule_resource sc)]) _ Hnone).
  apply get_set_same.
Qed.

(** C8. [update-short-urls-policy.py], the script with a fallback: when no
    statement satisfies the condition, [new_statement] itself is appended at
    the end of [Statement], the count grows by one and [changed = true]. *)
Theorem fallback_statement_appended (doc : obj) (stmts : list json) :
  get "Statement" doc = Some (JArr stmts) ->
  Forall (fun s => statement_matches is_dynamodb s = Ok false) stmts ->
  let D' := JObj (set "Statement" (JArr (stmts ++ [new_statement])) doc) in
  apply UpdateShortUrlsPolicy (JObj doc) = Ok (D', true)
  /\ statements_of D' = statements_of (JObj doc) ++ [new_statement]
  /\ List.length (statements_of D') = S (List.length (statements_of (JObj doc))).
Proof.
  intros G Hall D'.
  assert (Hst : statements_of D' = stmts ++ [new_statement]).
  { unfold D', statements_of. now rewrite get_set_same. }
  assert (Hst0 : statements_of (JObj doc) = stmts).
  { unfold statements_of. now rewrite G. }
  rewrite Hst, Hst0. repeat split.
  - unfold apply. simpl. unfold update_short_urls_policy.
    rewrite (scan_no_match _ short_urls_arn _ _ G Hall). simpl.
    now rewrite G.
  - rewrite length_app. simpl. lia.
Qed.

(** ** What a run leaves in place *)

Lemma nth_error_replace (A : Type) (pre post : list A) (x y : A) (i : nat)
      (s : A) :
  nth_error (pre ++ x :: post) i = Some s ->
  (i <> List.length pre /\ nth_error (pre ++ y :: post) i = Some s)
  \/ (i = List.length pre /\ s = x /\ nth_error (pre ++ y :: post) i = Some y).
Proof.
  revert i. induction pre as [|a pre IH]; intros [|i] H; simpl in *.
  - right. injection H as <-. auto.
  - left. split; [discriminate | assumption].
  - left. split; [discriminate | assumption].
  - destruct (IH _ H) as [[Hne Hn] | (-> & -> & Hn)].
    + left. split; [congruence | assumption].
    + right. auto.
Qed.

Lemma first_match_at (is_target : json -> result bool) (pre post : list json)
      (x : json) :
  Forall (fun s => statement_matches is_target s = Ok false) pre ->
  statement_matches is_target x = Ok true ->
  first_match is_target (pre ++ x :: post) = Some (List.length pre).
Proof.
  intros Hpre Hx. induction Hpre as [|s pre Hs Hpre IH]; simpl.
  - now rewrite Hx.
  - now rewrite Hs, IH.
Qed.

(** The three shapes of the document a script hands on: the one it read; the
    one it read with the ARN appended to the [Resource] of the first matching
    statement; the one it read with [new_statement] appended. *)
Lemma apply_shape (sc : script) (D D' : json) (c : bool) :
  apply sc D = Ok (D', c) ->
  D' = D
  \/ (exists doc pre d rs post,
        D = JObj doc
        /\ get "Statement" doc = Some (JArr (pre ++ JObj d :: post))
        /\ Forall (fun s => statement_matches (rule_match sc) s = Ok false) pre
        /\ statement_matches (rule_match sc) (JObj d) = Ok true
        /\ resources d = JArr rs
        /\ D' = JObj (set "Statement"
                        (JArr (pre ++ JObj (set "Resource"
                                              (JArr (rs ++ [JStr (rule_resource sc)])) d)
                                   :: post))
                        doc))
  \/ (sc = UpdateShortUrlsPolicy
      /\ exists doc stmts,
           D = JObj doc
           /\ get "Statement" doc = Some (JArr stmts)
           /\ D' = JObj (set "Statement" (JArr (stmts ++ [new_statement])) doc)).
Proof.
  unfold apply. intros H. bind_inv H as r Hrun. destruct r as [doc1 m].
  simpl in H. injection H as -> _.
  destruct (run_inv _ _ _ _ Hrun)
    as [Hscan | [(_ & _ & -> & _)
                | (-> & _ & _ & doc & stmts & -> & G & ->)]].
  - destruct (scan_found _ _ _ _ _ Hscan)
      as (doc & pre & d & s' & post & -> & G & -> & Hpre & Hd & He).
    destruct (ensure_resource_cases _ _ _ _ He)
      as [(_ & -> & _) | (rs & _ & Hrs & _ & ->)].
    + left. now rewrite (set_get_same _ _ _ G).
    + right. left. exists doc, pre, d, rs, post. auto 10.
  - now left.
  - right. right. split; [reflexivity|]. exists doc, stmts. auto.
Qed.

(** C5. Non-destructive append: the output has as many statements as the
    input or one more; every input statement is still at its position, with
    the same [Action] sequence and with a [Resource] sequence that starts
    with the one it had. *)
Theorem statements_only_appended (sc : script) (D D' : json) (c : bool) :
  apply sc D = Ok (D', c) ->
  (List.length (statements_of D') = List.length (statements_of D)
   \/ List.length (statements_of D') = S (List.length (statements_of D)))
  /\ forall (i : nat) (s : json),
       nth_error (statements_of D) i = Some s ->
       exists (s' : json) (added : list json),
         nth_error (statements_of D') i = Some s'
         /\ action_list s' = action_list s
         /\ resource_list s' = resource_list s ++ added.
Proof.
  intros H.
  destruct (apply_shape _ _ _ _ H)
    as [-> | [(doc & pre & d & rs & post & -> & G & _ & _ & Hrs & ->)
             | (_ & doc & stmts & -> & G & ->)]].
  - split; [now left|]. intros i s Hi. exists s, []. rewrite app_nil_r. auto.
  - unfold statements_of. rewrite get_set_same, G. split.
    + left. rewrite !length_app. reflexivity.
    + intros i s Hi.
      destruct (nth_error_replace _ pre post _
                  (JObj (set "Resource" (JArr (rs ++ [JStr (rule_resource sc)])) d))
                  i _ Hi) as [[_ Hn] | (_ & -> & Hn)].
      * exists s, []. rewrite app_nil_r. auto.
      * eexists. exists [JStr (rule_resource sc)]. split; [exact Hn|].
        simpl. rewrite actions_set_resource, resources_set_resource, Hrs. auto.
  - unfold statements_of. rewrite get_set_same, G. split.
    + right. rewrite length_app. simpl. lia.
    + intros i s Hi. exists s, []. rewrite app_nil_r. repeat split.
      rewrite nth_error_app1; [assumption|].
      apply nth_error_Some. congruence.
Qed.

(** C9. Frame: a run keeps the fields of the document other than
    [Statement]; every input statement keeps its position and all its fields
    other than [Resource]; a statement that is not the first matching one is
    identical in the output; and the two scripts without a fallback keep the
    number of statements. *)
Theorem only_first_match_resource_changes (sc : script) (D D' : json)
        (c : bool) :
  apply sc D = Ok (D', c) ->
  document_frame D' = document_frame D
  /\ (sc <> UpdateShortUrlsPolicy ->
      List.length (statements_of D') = List.length (statements_of D))
  /\ forall (i : nat) (s : json),
       nth_error (statements_of D) i = Some s ->
       exists s' : json,
         nth_error (statements_of D') i = Some s'
         /\ statement_frame s' = statement_frame s
         /\ (first_match (rule_match sc) (statements_of D) <> Some i -> s' = s).
Proof.
  intros H.
  destruct (apply_shape _ _ _ _ H)
    as [-> | [(doc & pre & d & rs & post & -> & G & Hpre & Hd & Hrs & ->)
             | (-> & doc & stmts & -> & G & ->)]].
  - repeat split. intros i s Hi. exists s. auto.
  - unfold statements_of, document_frame.
    rewrite get_set_same, G, without_set. repeat split.
    + intros _. rewrite !length_app. reflexivity.
    + intros i s Hi.
      rewrite (first_match_at _ _ post _ Hpre Hd).
      destruct (nth_error_replace _ pre post _
                  (JObj (set "Resource" (JArr (rs ++ [JStr (rule_resource sc)])) d))
                  i _ Hi) as [[Hne Hn] | (-> & -> & Hn)].
      * exists s. auto.
      * eexists. split; [exact Hn|]. split.
        -- simpl. now rewrite without_set.
        -- intros Hne. congruence.
  - unfold statements_of, document_frame.
    rewrite get_set_same, G, without_set. repeat split.
    + intros Hne. congruence.
    + intros i s Hi. exists s. repeat split.
      rewrite nth_error_app1; [assumption|].
      apply nth_error_Some. congruence.
Qed.

(** ** The theorems above on the scenarios of the specification *)

Lemma logs_statement_no_match (sc : script) :
  Forall (fun s => statement_matches (rule_match sc) s = Ok false)
         [logs_statement].
Proof.
  constructor; [|constructor]. destruct sc; vm_compute; reflexivity.
Qed.

Lemma first_match_resource_ensured_witness :
  ~ In (JStr backdoor_arn) [JStr foo_arn]
  /\ apply UpdatePolicy scenario1 = Ok (scenario1_patched, true).
Proof.
  assert (Hnot : ~ In (JStr backdoor_arn) [JStr foo_arn]).
  { intros [H|[]]. discriminate H. }
  split; [exact Hnot|].
  exact (proj2 (first_match_resource_ensured UpdatePolicy
                  (policy_fields
                     [logs_statement; JObj (secret_fields (JArr [JStr foo_arn]))])
                  [logs_statement] [] (secret_fields (JArr [JStr foo_arn]))
                  [JStr foo_arn]
                  eq_refl (logs_statement_no_match UpdatePolicy)
                  eq_refl eq_refl)
               Hnot).
Defined.

Lemma missing_resource_becomes_singleton_witness :
  get "Resource" bare_action_fields = None
  /\ apply UpdateTelnyxPolicy scenario5 = Ok (scenario5_patched, true).
Proof.
  split; [reflexivity|].
  exact (proj1 (missing_resource_becomes_singleton UpdateTelnyxPolicy
                  (policy_fields [logs_statement; JObj bare_action_fields])
                  [logs_statement] [] bare_action_fields
                  eq_refl (logs_statement_no_match UpdateTelnyxPolicy)
                  eq_refl eq_refl)).
Defined.

Lemma fallback_statement_appended_witness :
  apply UpdateShortUrlsPolicy scenario3 = Ok (scenario3_patched, true)
  /\ List.length (statements_of scenario3_patched)
     = S (List.length (statements_of scenario3)).
Proof.
  pose proof (fallback_statement_appended (policy_fields [logs_statement])
                [logs_statement] eq_refl
                (logs_statement_no_match UpdateShortUrlsPolicy))
    as (Happly & _ & Hlen).
  split; [exact Happly | exact Hlen].
Defined.

Lemma statements_only_appended_witness :
  apply UpdatePolicy scenario1 = Ok (scenario1_patched, true)
  /\ exists (s' : json) (added : list json),
       nth_error (statements_of scenario1_patched) 1 = Some s'
       /\ action_list s' = [JStr "secretsmanager:GetSecretValue"]
       /\ resource_list s' = [JStr foo_arn] ++ added.
Proof.
  assert (H : apply UpdatePolicy scenario1 = Ok (scenario1_patched, true)).
  { vm_compute. reflexivity. }
  split; [exact H|].
  exact (proj2 (statements_only_appended UpdatePolicy scenario1
                  scenario1_patched true H)
               1 (JObj (secret_fields (JArr [JStr foo_arn]))) eq_refl).
Defined.

Lemma only_first_match_resource_changes_witness :
  apply UpdateTelnyxPolicy scenario5 = Ok (scenario5_patched, true)
  /\ document_frame scenario5_patched = document_frame scenario5
  /\ List.length (statements_of scenario5_patched)
     = List.length (statements_of scenario5).
Proof.
  assert (H : apply UpdateTelnyxPolicy scenario5 = Ok (scenario5_patched, true)).
  { vm_compute. reflexivity. }
  split; [exact H|].
  destruct (only_first_match_resource_changes UpdateTelnyxPolicy scenario5
              scenario5_patched true H) as (Hframe & Hlen & _).
  split; [exact Hframe|]. apply Hlen. discriminate.
Defined.

(** ** Normalisation of bare strings *)

Lemma actions_set_action_string (X : string) (d : obj) :
  actions (set "Action" (JStr X) d) = JArr [JStr X].
Proof.
  unfold actions, get_default. now rewrite get_set_same.
Qed.

Lemma actions_set_action_list (l : list json) (d : obj) :
  actions (set "Action" (JArr l) d) = JArr l.
Proof.
  unfold actions, get_default. now rewrite get_set_same.
Qed.

Lemma resources_set_resource_string (R : string) (d : obj) :
  resources (set "Resource" (JStr R) d) = JArr [JStr R].
Proof.
  unfold resources, get_default. now rewrite get_set_same.
Qed.

(** C7. A statement whose [Action] is the bare string [X] and the same
    statement with [Action] the one-element list of [X] give the same answer
    to the condition of every script; and a bare-string [Resource] is looked
    through as the one-element list. *)
Theorem bare_string_matches_like_singleton (sc : script) (X R : string)
        (d : obj) :
  statement_matches (rule_match sc) (JObj (set "Action" (JStr X) d))
  = statement_matches (rule_match sc) (JObj (set "Action" (JArr [JStr X]) d))
  /\ py_in (rule_resource sc) (resources (set "Resource" (JStr R) d))
     = py_in (rule_resource sc) (resources (set "Resource" (JArr [JStr R]) d))
  /\ printed (ensure_resource (rule_resource sc) (set "Resource" (JStr R) d))
     = printed (ensure_resource (rule_resource sc)
                                (set "Resource" (JArr [JStr R]) d)).
Proof.
  repeat split.
  - unfold statement_matches. simpl.
    now rewrite actions_set_action_string, actions_set_action_list.
  - now rewrite resources_set_resource_string, resources_set_resource.
  - unfold printed, ensure_resource.
    rewrite resources_set_resource_string, resources_set_resource. simpl.
    destruct (String.eqb (rule_resource sc) R); reflexivity.
Qed.

(** Scenario 5 on the three scripts' conditions. *)
Example bare_get_secret_value_matches :
  statement_matches is_secretsmanager
    (JObj [("Action", JStr "secretsmanager:GetSecretValue")]) = Ok true
  /\ statement_matches is_secretsmanager
       (JObj [("Action", JArr [JStr "secretsmanager:GetSecretValue"])]) = Ok true.
Proof.
  split; vm_compute; reflexivity.
Qed.

(** ** How names are compared *)

(** C3, as stated, fails: the condition of [update-short-urls-policy.py] is
    not the presence of one fixed action name; it accepts [DynamoDB:GetItem],
    in capitals, and two different names. *)
Lemma dynamodb_match_not_exact :
  rule_match UpdateShortUrlsPolicy (JArr [JStr "DynamoDB:GetItem"]) = Ok true
  /\ ~ exact_match (rule_match UpdateShortUrlsPolicy).
Proof.
  split; [vm_compute; reflexivity|].
  intros [name H].
  assert (L1 : is_dynamodb (JArr [JStr "DynamoDB:GetItem"]) = Ok true)
    by (vm_compute; reflexivity).
  assert (L2 : is_dynamodb (JArr [JStr "dynamodb:Query"]) = Ok true)
    by (vm_compute; reflexivity).
  pose proof (H [JStr "DynamoDB:GetItem"]) as H1.
  pose proof (H [JStr "dynamodb:Query"]) as H2.
  simpl rule_match in H1, H2. rewrite L1 in H1. rewrite L2 in H2.
  unfold existsb, str_eq in H1, H2. rewrite orb_false_r in H1, H2.
  injection H1 as H1. injection H2 as H2.
  symmetry in H1, H2. apply String.eqb_eq in H1, H2.
  rewrite H1 in H2. discriminate H2.
Qed.

Lemma ok_true_iff (b : bool) : @Ok bool b = Ok true <-> b = true.
Proof.
  split; [intros H; now injection H | now intros ->].
Qed.

(** C3, amended. The two Secrets Manager scripts match a statement when its
    action list has an element equal to ['secretsmanager:GetSecretValue'];
    every script looks the ARN up in the resource list by equality of
    strings; [update-short-urls-policy.py] matches a statement when some
    action, in lower case, has ['dynamodb'] as a substring.  Equality of
    strings is exact: case matters and [*] stands for itself. *)
Theorem matching_exact_except_dynamodb :
  (forall l : list json,
      rule_match UpdatePolicy (JArr l) = Ok true
      <-> In (JStr "secretsmanager:GetSecretValue") l)
  /\ (forall l : list json,
         rule_match UpdateTelnyxPolicy (JArr l) = Ok true
         <-> In (JStr "secretsmanager:GetSecretValue") l)
  /\ (forall l : list json,
         rule_match UpdateShortUrlsPolicy (JArr l) = Ok true
         <-> exists action : json,
               In action l
               /\ PyStr.contains "dynamodb" (PyStr.lower (py_str action)) = true)
  /\ (forall (sc : script) (d : obj) (rs : list json),
         printed (ensure_resource (rule_resource sc)
                                  (set "Resource" (JArr rs) d))
         = Ok AlreadyPresent
         <-> In (JStr (rule_resource sc)) rs).
Proof.
  assert (Hsecret : forall l : list json,
             is_secretsmanager (JArr l) = Ok true
             <-> In (JStr "secretsmanager:GetSecretValue") l).
  { intros l. unfold is_secretsmanager. simpl. rewrite ok_true_iff.
    apply existsb_str_eq. }
  split; [exact Hsecret|]. split; [exact Hsecret|]. split.
  - intros l. simpl. unfold is_dynamodb. simpl. rewrite ok_true_iff.
    apply existsb_exists.
  - intros sc d rs.
    unfold printed, ensure_resource. rewrite resources_set_resource. simpl.
    rewrite <- existsb_str_eq.
    destruct (existsb (str_eq (rule_resource sc)) rs); simpl.
    + split; reflexivity.
    + split; discriminate.
Qed.

(** Neither letter case nor [*] is interpreted when strings are compared. *)
Example comparison_is_literal :
  str_eq "secretsmanager:GetSecretValue" (JStr "secretsmanager:getsecretvalue")
  = false
  /\ str_eq "secretsmanager:GetSecretValue" (JStr "secretsmanager:*") = false
  /\ str_eq backdoor_arn
       (JStr "arn:aws:secretsmanager:us-west-2:123456789012:secret:mobile-app/backdoor-secret-AbCdEf")
     = false
  /\ apply UpdateTelnyxPolicy
       (JObj (policy_fields [JObj [("Action", JStr "secretsmanager:*")]]))
     = Err NoStatementExit.
Proof.
  repeat split; vm_compute; reflexivity.
Qed.

(** ** No statement found, no statement list *)

(** Without a matching statement, [update-telnyx-policy.py] warns and exits
    with status 1, and [update-policy.py] prints the document it read. *)
Lemma no_match_without_fallback (doc : obj) (stmts : list json) :
  get "Statement" doc = Some (JArr stmts) ->
  Forall (fun s => statement_matches is_secretsmanager s = Ok false) stmts ->
  run UpdateTelnyxPolicy (JObj doc) = Err NoStatementExit
  /\ run UpdatePolicy (JObj doc) = Ok (JObj doc, NoMessage).
Proof.
  intros G Hall. simpl. unfold update_telnyx_policy, update_policy.
  rewrite (scan_no_match _ telnyx_arn _ _ G Hall).
  rewrite (scan_no_match _ backdoor_arn _ _ G Hall). auto.
Qed.

(** C2. On a document without a Secrets Manager statement (scenario 4),
    [update-telnyx-policy.py] stops with its no-statement exit, and
    [update-policy.py] hands the document on as if nothing were wrong. *)
Theorem update_policy_silent_without_match :
  Forall (fun s => statement_matches (rule_match UpdatePolicy) s = Ok false)
         (statements_of scenario3)
  /\ apply UpdateTelnyxPolicy scenario3 = Err NoStatementExit
  /\ apply UpdatePolicy scenario3 = Ok (scenario3, false).
Proof.
  split; [apply (logs_statement_no_match UpdatePolicy)|].
  split; vm_compute; reflexivity.
Qed.

(** C6, as stated, fails: a document without [Statement] is read as one
    with no statement.  [update-telnyx-policy.py] then stops with the exit of
    the case "no statement found", the one it takes on an empty [Statement]
    list, and not with an error about the document; [update-policy.py] does
    not stop at all. *)
Lemma missing_statement_not_malformed :
  statement_missing_or_not_list [("Version", JStr "2012-10-17")] = true
  /\ run UpdateTelnyxPolicy (JObj [("Version", JStr "2012-10-17")])
     = Err NoStatementExit
  /\ run UpdateTelnyxPolicy (JObj [("Version", JStr "2012-10-17")])
     = run UpdateTelnyxPolicy (JObj (policy_fields []))
  /\ run UpdatePolicy (JObj [("Version", JStr "2012-10-17")])
     = Ok (JObj [("Version", JStr "2012-10-17")], NoMessage)
  /\ ~ (forall (sc : script) (doc : obj),
          statement_missing_or_not_list doc = true ->
          exists e : py_error,
            run sc (JObj doc) = Err e /\ e <> NoStatementExit).
Proof.
  split; [reflexivity|].
  split; [vm_compute; reflexivity|].
  split; [vm_compute; reflexivity|].
  split; [vm_compute; reflexivity|].
  intros H.
  destruct (H UpdateTelnyxPolicy [("Version", JStr "2012-10-17")] eq_refl)
    as (e & He & Hne).
  vm_compute in He. injection He as <-. now apply Hne.
Qed.

Lemma scan_get_statement (is_target : json -> result bool) (arn : string)
      (doc : obj) :
  scan is_target arn (JObj doc)
  = stmts <- py_iter (get_default "Statement" (JArr []) doc) ;;
    r <- for_statement is_target arn stmts ;;
    match r with
    | None => Ok (JObj doc, None)
    | Some (stmts', msg) =>
        Ok (JObj (set "Statement" (JArr stmts') doc), Some msg)
    end.
Proof.
  reflexivity.
Qed.

(** C6, amended. When [Statement] is missing or is not a list: a missing
    field, an empty string and an empty dictionary are read as an empty
    statement sequence, so that [update-telnyx-policy.py] stops with its
    no-statement exit and [update-short-urls-policy.py] fails on the append
    of its new statement; any other value makes the three scripts fail in
    the loop with a [TypeError] or an [AttributeError].  No script hands on
    a changed document. *)
Theorem statement_missing_or_not_list_outcome (doc : obj) :
  statement_missing_or_not_list doc = true ->
  (statement_iterates_empty doc = true ->
   run UpdateTelnyxPolicy (JObj doc) = Err NoStatementExit
   /\ (run UpdateShortUrlsPolicy (JObj doc) = Err KeyError
       \/ run UpdateShortUrlsPolicy (JObj doc) = Err AttributeError))
  /\ (statement_iterates_empty doc = false ->
      exists e : py_error,
        (e = TypeError \/ e = AttributeError)
        /\ forall sc : script, run sc (JObj doc) = Err e)
  /\ (forall (sc : script) (D' : json) (m : message),
         run sc (JObj doc) = Ok (D', m) -> D' = JObj doc /\ changed m = false).
Proof.
  unfold statement_missing_or_not_list, statement_iterates_empty.
  intros Hshape.
  assert (Hrun : forall e,
             (forall t a, scan t a (JObj doc) = Err e) ->
             forall sc, run sc (JObj doc) = Err e).
  { intros e He sc.
    destruct sc; simpl;
      unfold update_policy, update_telnyx_policy, update_short_urls_policy;
      now rewrite He. }
  assert (Hempty : forall t a,
             py_iter (get_default "Statement" (JArr []) doc) = Ok [] ->
             scan t a (JObj doc) = Ok (JObj doc, None)).
  { intros t a Hi. rewrite scan_get_statement. now rewrite Hi. }
  assert (Hquiet : (forall t a, scan t a (JObj doc) = Ok (JObj doc, None)) ->
                   (run UpdateTelnyxPolicy (JObj doc) = Err NoStatementExit
                    /\ (run UpdateShortUrlsPolicy (JObj doc) = Err KeyError
                        \/ run UpdateShortUrlsPolicy (JObj doc)
                           = Err AttributeError))
                   /\ forall sc D' m,
                        run sc (JObj doc) = Ok (D', m) ->
                        D' = JObj doc /\ changed m = false).
  { intros Hs. simpl.
    unfold update_policy, update_telnyx_policy, update_short_urls_policy.
    rewrite !Hs. simpl. split; [split; [reflexivity|]|].
    - destruct (get "Statement" doc) as [[| | |s|l|fields]|];
        try discriminate Hshape; simpl; auto.
    - intros sc D' m. destruct sc; simpl;
        unfold update_policy, update_telnyx_policy, update_short_urls_policy;
        rewrite Hs; simpl.
      + intros H. injection H as <- <-. auto.
      + discriminate.
      + destruct (get "Statement" doc) as [[| | |s|l|fields]|];
          try discriminate Hshape; simpl; discriminate. }
  assert (Hfail : forall e,
             (e = TypeError \/ e = AttributeError) ->
             (forall t a, scan t a (JObj doc) = Err e) ->
             (exists e0 : py_error,
                 (e0 = TypeError \/ e0 = AttributeError)
                 /\ forall sc, run sc (JObj doc) = Err e0)
             /\ forall sc D' m,
                  run sc (JObj doc) = Ok (D', m) ->
                  D' = JObj doc /\ changed m = false).
  { intros e Hkind He. split.
    - exists e. split; [exact Hkind | now apply Hrun].
    - intros sc D' m H. rewrite (Hrun e He sc) in H. discriminate H. }
  destruct (get "Statement" doc) as [[| | |s|l|fields]|] eqn:G;
    try discriminate Hshape.
  - destruct (Hfail TypeError (or_introl eq_refl)) as [Hex Hno].
    { intros t a. rewrite scan_get_statement.
      unfold get_default. now rewrite G. }
    split; [discriminate|]. split; [intros _; exact Hex | exact Hno].
  - destruct (Hfail TypeError (or_introl eq_refl)) as [Hex Hno].
    { intros t a. rewrite scan_get_statement.
      unfold get_default. now rewrite G. }
    split; [discriminate|]. split; [intros _; exact Hex | exact Hno].
  - destruct (Hfail TypeError (or_introl eq_refl)) as [Hex Hno].
    { intros t a. rewrite scan_get_statement.
      unfold get_default. now rewrite G. }
    split; [discriminate|]. split; [intros _; exact Hex | exact Hno].
  - destruct s as [|c t].
    + destruct Hquiet as [Hq Hno].
      { intros t a. apply Hempty. unfold get_default. now rewrite G. }
      split; [intros _; exact Hq|]. split; [discriminate | exact Hno].
    + destruct (Hfail AttributeError (or_intror eq_refl)) as [Hex Hno].
      { intros t' a. rewrite scan_get_statement.
        unfold get_default. now rewrite G. }
      split; [discriminate|]. split; [intros _; exact Hex | exact Hno].
  - destruct fields as [|[k v] rest].
    + destruct Hquiet as [Hq Hno].
      { intros t a. apply Hempty. unfold get_default. now rewrite G. }
      split; [intros _; exact Hq|]. split; [discriminate | exact Hno].
    + destruct (Hfail AttributeError (or_intror eq_refl)) as [Hex Hno].
      { intros t' a. rewrite scan_get_statement.
        unfold get_default. now rewrite G. }
      split; [discriminate|]. split; [intros _; exact Hex | exact Hno].
  - destruct Hquiet as [Hq Hno].
    { intros t a. apply Hempty. unfold get_default. now rewrite G. }
    split; [intros _; exact Hq|]. split; [discriminate | exact Hno].
Qed.

Lemma statement_missing_or_not_list_outcome_witness :
  statement_missing_or_not_list [("Statement", JStr "Allow")] = true
  /\ exists e : py_error,
       (e = TypeError \/ e = AttributeError)
       /\ forall sc : script,
            run sc (JObj [("Statement", JStr "Allow")]) = Err e.
Proof.
  split; [reflexivity|].
  exact (proj1 (proj2 (statement_missing_or_not_list_outcome
                         [("Statement", JStr "Allow")] eq_refl))
               eq_refl).
Defined.

(** * The rest of the scripts *)

(** ** Lines of the output of the CLI *)

Lemma split_not_nil (s : string) : PyLines.split s <> [].
Proof.
  destruct s as [|c t]; simpl; [discriminate|].
  destruct (Ascii.eqb c PyLines.newline); [discriminate|].
  destruct (PyLines.split t); discriminate.
Qed.

Lemma join_cons (line : string) (lines : list string) :
  lines <> [] ->
  PyLines.join (line :: lines)
  = (line ++ String PyLines.newline (PyLines.join lines))%string.
Proof.
  unfold PyLines.join. destruct lines as [|l ls]; [congruence|].
  intros _. reflexivity.
Qed.

(** Joining the lines that [split] gives is the text that was split. *)
Lemma join_split (s : string) : PyLines.join (PyLines.split s) = s.
Proof.
  induction s as [|c t IH]; [reflexivity|]. simpl.
  destruct (Ascii.eqb_spec c PyLines.newline) as [->|Hc].
  - rewrite join_cons by apply split_not_nil. simpl. now rewrite IH.
  - pose proof (split_not_nil t) as Hne.
    destruct (PyLines.split t) as [|piece rest]; [congruence|].
    destruct rest as [|l ls].
    + unfold PyLines.join in *. simpl in *. now rewrite IH.
    + rewrite join_cons by discriminate. rewrite join_cons in IH by discriminate.
      simpl. now rewrite IH.
Qed.

Lemma split_no_newline (s : string) :
  PyStr.mem_char PyLines.newline s = false -> PyLines.split s = [s].
Proof.
  induction s as [|c t IH]; [reflexivity|].
  cbn [PyLines.split PyStr.mem_char]. rewrite Ascii.eqb_sym.
  destruct (Ascii.eqb c PyLines.newline); cbn [orb]; intros H;
    [discriminate H|].
  now rewrite (IH H).
Qed.

Lemma split_append_newline (line rest : string) :
  PyStr.mem_char PyLines.newline line = false ->
  PyLines.split (line ++ String PyLines.newline rest)
  = line :: PyLines.split rest.
Proof.
  induction line as [|c t IH].
  - intros _. cbn [append PyLines.split]. now rewrite Ascii.eqb_refl.
  - cbn [append PyLines.split PyStr.mem_char]. rewrite Ascii.eqb_sym.
    destruct (Ascii.eqb c PyLines.newline); cbn [orb]; intros H;
      [discriminate H|].
    now rewrite (IH H).
Qed.

(** Splitting the join of lines without a newline gives the lines. *)
Lemma split_join (lines : list string) :
  lines <> [] ->
  Forall (fun line => PyStr.mem_char PyLines.newline line = false) lines ->
  PyLines.split (PyLines.join lines) = lines.
Proof.
  intros Hne Hall. induction Hall as [|line rest Hline Hrest IH]; [congruence|].
  destruct rest as [|l ls].
  - unfold PyLines.join. simpl. now apply split_no_newline.
  - rewrite join_cons by discriminate.
    rewrite (split_append_newline _ _ Hline). f_equal. apply IH. discriminate.
Qed.

Lemma split_lines_no_newline (s : string) :
  Forall (fun line => PyStr.mem_char PyLines.newline line = false)
         (PyLines.split s).
Proof.
  induction s as [|c t IH]; simpl.
  - constructor; [reflexivity | constructor].
  - destruct (Ascii.eqb c PyLines.newline) eqn:Ec.
    + constructor; [reflexivity | exact IH].
    + pose proof (split_not_nil t) as Hne.
      destruct (PyLines.split t) as [|piece rest]; [congruence|].
      inversion IH as [|? ? Hp Hr]; subst. constructor; [|exact Hr].
      cbn [PyStr.mem_char]. rewrite Ascii.eqb_sym, Ec. exact Hp.
Qed.

(** A line cannot both open and close the object. *)
Lemma opens_not_closes (line : string) :
  PyLines.opens line = true -> PyLines.closes line = false.
Proof.
  unfold PyLines.opens, PyLines.closes.
  destruct (PyLines.strip line) as [|c t];
    cbn [String.prefix String.eqb]; intros H; [discriminate H|].
  destruct (ascii_dec "{" c) as [<-|Hc]; [reflexivity | discriminate H].
Qed.

(** Either no element satisfies [p], or there is a first one. *)
Lemma first_such (A : Type) (p : A -> bool) (l : list A) :
  Forall (fun x => p x = false) l
  \/ exists pre x post,
       l = pre ++ x :: post /\ Forall (fun y => p y = false) pre /\ p x = true.
Proof.
  induction l as [|a l IH].
  - left. constructor.
  - destruct (p a) eqn:Ea.
    + right. exists [], a, l. repeat split; auto.
    + destruct IH as [Hall | (pre & x & post & -> & Hpre & Hx)].
      * left. now constructor.
      * right. exists (a :: pre), x, post. repeat split; auto.
Qed.

Lemma find_json_unopened (i : Z) (lines : list string) :
  Forall (fun line => PyLines.opens line = false) lines ->
  PyLines.find_json i (-1) lines = ((-1)%Z, (-1)%Z).
Proof.
  intros Hall. revert i. induction Hall as [|line rest Hline Hrest IH]; intros i.
  - reflexivity.
  - simpl. rewrite Hline. simpl. apply IH.
Qed.

Lemma find_json_unclosed (i json_start : Z) (lines : list string) :
  json_start <> (-1)%Z ->
  Forall (fun line => PyLines.closes line = false) lines ->
  PyLines.find_json i json_start lines = (json_start, (-1)%Z).
Proof.
  intros Hjs Hall. revert i.
  induction Hall as [|line rest Hline Hrest IH]; intros i.
  - reflexivity.
  - simpl. apply Z.eqb_neq in Hjs. rewrite Hjs, andb_false_r, Hjs, Hline.
    simpl. apply IH.
Qed.

Lemma find_json_closed (i json_start : Z) (mid post : list string)
      (last : string) :
  json_start <> (-1)%Z ->
  Forall (fun line => PyLines.closes line = false) mid ->
  PyLines.closes last = true ->
  PyLines.find_json i json_start (mid ++ last :: post)
  = (json_start, (i + Z.of_nat (List.length mid))%Z).
Proof.
  intros Hjs Hmid Hlast. revert i.
  induction Hmid as [|line rest Hline Hrest IH]; intros i.
  - simpl. apply Z.eqb_neq in Hjs. rewrite Hjs, andb_false_r, Hjs, Hlast.
    simpl. f_equal. lia.
  - simpl app. simpl PyLines.find_json.
    pose proof Hjs as Hjs'. apply Z.eqb_neq in Hjs'.
    rewrite Hjs', andb_false_r, Hjs', Hline. simpl.
    rewrite IH. f_equal. simpl List.length. lia.
Qed.

Lemma find_json_opened (i : Z) (pre rest : list string) (first : string) :
  (0 <= i)%Z ->
  Forall (fun line => PyLines.opens line = false) pre ->
  PyLines.opens first = true ->
  PyLines.find_json i (-1) (pre ++ first :: rest)
  = PyLines.find_json (i + Z.of_nat (List.length pre) + 1)
                      (i + Z.of_nat (List.length pre)) rest.
Proof.
  intros Hi Hpre Hfirst. revert i Hi.
  induction Hpre as [|line pre' Hline Hpre' IH]; intros i Hi.
  - simpl. rewrite Hfirst. simpl.
    assert (Hne : (i =? -1)%Z = false) by (apply Z.eqb_neq; lia).
    rewrite Hne, (opens_not_closes _ Hfirst). simpl.
    now replace (i + 0)%Z with i by lia.
  - simpl app. simpl PyLines.find_json. rewrite Hline. simpl.
    rewrite IH by lia. simpl List.length. f_equal; lia.
Qed.

Lemma slice_middle (A : Type) (pre body post : list A) :
  PyLines.slice (Z.of_nat (List.length pre))
                (Z.of_nat (List.length pre) + Z.of_nat (List.length body))
                (pre ++ body ++ post)
  = body.
Proof.
  unfold PyLines.slice.
  replace (Z.of_nat (List.length pre) + Z.of_nat (List.length body)
           - Z.of_nat (List.length pre))%Z
    with (Z.of_nat (List.length body)) by lia.
  rewrite !Nat2Z.id.
  rewrite skipn_app, skipn_all, Nat.sub_diag. simpl.
  rewrite firstn_app, firstn_all, Nat.sub_diag. simpl. apply app_nil_r.
Qed.

(** The object is found between the first line that opens it and the first
    line after it that closes it. *)
Lemma extract_json_found (stdout : string) (pre mid post : list string)
      (first last : string) :
  PyLines.split stdout = pre ++ first :: mid ++ last :: post ->
  Forall (fun line => PyLines.opens line = false) pre ->
  PyLines.opens first = true ->
  Forall (fun line => PyLines.closes line = false) mid ->
  PyLines.closes last = true ->
  PyLines.extract_json stdout = Some (PyLines.join (first :: mid ++ [last])).
Proof.
  intros Hsplit Hpre Hfirst Hmid Hlast.
  unfold PyLines.extract_json. rewrite Hsplit.
  rewrite (find_json_opened 0 _ _ _ (Z.le_refl 0) Hpre Hfirst).
  rewrite find_json_closed by (assumption || lia).
  assert (H1 : ((0 + Z.of_nat (List.length pre) =? -1) = false)%Z)
    by (apply Z.eqb_neq; lia).
  assert (H2 : ((0 + Z.of_nat (List.length pre) + 1
                 + Z.of_nat (List.length mid) =? -1) = false)%Z)
    by (apply Z.eqb_neq; lia).
  rewrite H1, H2. simpl orb. cbv iota. f_equal. f_equal.
  replace (pre ++ first :: mid ++ last :: post)
    with (pre ++ (first :: mid ++ [last]) ++ post)
    by (simpl; now rewrite <- app_assoc).
  replace (0 + Z.of_nat (List.length pre))%Z
    with (Z.of_nat (List.length pre)) by lia.
  replace (Z.of_nat (List.length pre) + 1
           + Z.of_nat (List.length mid) + 1)%Z
    with (Z.of_nat (List.length pre)
          + Z.of_nat (List.length (first :: mid ++ [last])))%Z.
  - apply slice_middle.
  - simpl List.length. rewrite length_app. simpl. lia.
Qed.

Lemma extract_json_not_found (stdout : string) :
  Forall (fun line => PyLines.opens line = false) (PyLines.split stdout)
  \/ (exists pre first rest,
         PyLines.split stdout = pre ++ first :: rest
         /\ Forall (fun line => PyLines.opens line = false) pre
         /\ PyLines.opens first = true
         /\ Forall (fun line => PyLines.closes line = false) rest) ->
  PyLines.extract_json stdout = None.
Proof.
  unfold PyLines.extract_json.
  intros [Hall | (pre & first & rest & -> & Hpre & Hfirst & Hrest)].
  - now rewrite (find_json_unopened 0 _ Hall).
  - rewrite (find_json_opened 0 _ _ _ (Z.le_refl 0) Hpre Hfirst).
    rewrite find_json_unclosed by (assumption || lia).
    now rewrite Z.eqb_refl, orb_true_r.
Qed.

(** The three cases of the lines of an output. *)
Lemma output_lines_cases (lines : list string) :
  Forall (fun line => PyLines.opens line = false) lines
  \/ (exists pre first rest,
         lines = pre ++ first :: rest
         /\ Forall (fun line => PyLines.opens line = false) pre
         /\ PyLines.opens first = true
         /\ Forall (fun line => PyLines.closes line = false) rest)
  \/ (exists pre first mid last post,
         lines = pre ++ first :: mid ++ last :: post
         /\ Forall (fun line => PyLines.opens line = false) pre
         /\ PyLines.opens first = true
         /\ Forall (fun line => PyLines.closes line = false) mid
         /\ PyLines.closes last = true).
Proof.
  destruct (first_such _ PyLines.opens lines)
    as [Hall | (pre & first & rest & -> & Hpre & Hfirst)]; [now left|].
  right.
  destruct (first_such _ PyLines.closes rest)
    as [Hall | (mid & last & post & -> & Hmid & Hlast)].
  - left. exists pre, first, rest. auto.
  - right. exists pre, first, mid, last, post. auto 10.
Qed.

(** X1. [json_str] is found exactly when some line opens the object and a
    later line closes it; it is then the lines from the first line that
    starts with an opening brace (after [strip]) to the first later line
    that is a closing brace alone, whatever comes before and after. *)
Theorem extract_json_some_iff (stdout json_str : string) :
  PyLines.extract_json stdout = Some json_str
  <-> exists pre first mid last post,
        PyLines.split stdout = pre ++ first :: mid ++ last :: post
        /\ Forall (fun line => PyLines.opens line = false) pre
        /\ PyLines.opens first = true
        /\ Forall (fun line => PyLines.closes line = false) mid
        /\ PyLines.closes last = true
        /\ json_str = PyLines.join (first :: mid ++ [last]).
Proof.
  split.
  - intros H.
    destruct (output_lines_cases (PyLines.split stdout))
      as [Hall | [Hopen | (pre & first & mid & last & post & Hs & Hpre & Hf & Hmid & Hl)]].
    + rewrite extract_json_not_found in H by (now left). discriminate H.
    + rewrite extract_json_not_found in H by (now right). discriminate H.
    + rewrite (extract_json_found _ _ _ _ _ _ Hs Hpre Hf Hmid Hl) in H.
      injection H as <-. exists pre, first, mid, last, post. auto 10.
  - intros (pre & first & mid & last & post & Hs & Hpre & Hf & Hmid & Hl & ->).
    now apply (extract_json_found _ pre mid post).
Qed.

(** X2. The script stops with "Could not find JSON in output" exactly when
    no line starts with an opening brace, or no line after the first such
    line is a closing brace alone. *)
Theorem extract_json_none_iff (stdout : string) :
  PyLines.extract_json stdout = None
  <-> Forall (fun line => PyLines.opens line = false) (PyLines.split stdout)
      \/ (exists pre first rest,
             PyLines.split stdout = pre ++ first :: rest
             /\ Forall (fun line => PyLines.opens line = false) pre
             /\ PyLines.opens first = true
             /\ Forall (fun line => PyLines.closes line = false) rest).
Proof.
  split; [|apply extract_json_not_found].
  intros H.
  destruct (output_lines_cases (PyLines.split stdout))
    as [Hall | [Hopen | (pre & first & mid & last & post & Hs & Hpre & Hf & Hmid & Hl)]].
  - now left.
  - now right.
  - rewrite (extract_json_found _ _ _ _ _ _ Hs Hpre Hf Hmid Hl) in H.
    discriminate H.
Qed.

(** X3. An output on a single line is never accepted, even when it is a
    JSON object: the closing brace has to be on a line of its own. *)
Theorem extract_json_single_line (stdout : string) :
  PyStr.mem_char PyLines.newline stdout = false ->
  PyLines.extract_json stdout = None.
Proof.
  intros H. apply extract_json_not_found.
  rewrite (split_no_newline _ H).
  destruct (PyLines.opens stdout) eqn:E.
  - right. exists [], stdout, []. repeat split; auto.
  - left. constructor; [assumption | constructor].
Qed.

Lemma extract_json_single_line_witness :
  PyLines.extract_json "{}" = None.
Proof.
  apply (extract_json_single_line "{}"). reflexivity.
Defined.

Lemma Forall_middle (A : Type) (P : A -> Prop) (pre body post : list A) :
  Forall P (pre ++ body ++ post) -> Forall P body.
Proof.
  intros H. apply Forall_app in H. destruct H as [_ H].
  apply Forall_app in H. tauto.
Qed.

(** X4. Extraction is idempotent: the text that is found is an output from
    which the same text is found again. *)
Theorem extract_json_idempotent (stdout json_str : string) :
  PyLines.extract_json stdout = Some json_str ->
  PyLines.extract_json json_str = Some json_str.
Proof.
  intros H.
  destruct (output_lines_cases (PyLines.split stdout))
    as [Hall | [Hopen | (pre & first & mid & last & post & Hs & Hpre & Hf & Hmid & Hl)]].
  - rewrite extract_json_not_found in H by (now left). discriminate H.
  - rewrite extract_json_not_found in H by (now right). discriminate H.
  - rewrite (extract_json_found _ _ _ _ _ _ Hs Hpre Hf Hmid Hl) in H.
    injection H as <-.
    apply (extract_json_found _ [] mid []); auto.
    apply split_join; [discriminate|].
    apply (Forall_middle _ _ pre _ post).
    pose proof (split_lines_no_newline stdout) as Hnl. rewrite Hs in Hnl.
    simpl. rewrite <- app_assoc. exact Hnl.
Qed.

Lemma extract_json_idempotent_witness :
  exists json_str : string,
    PyLines.extract_json sample_stdout = Some json_str
    /\ PyLines.extract_json json_str = Some json_str.
Proof.
  eexists. split; [vm_compute; reflexivity|].
  apply (extract_json_idempotent sample_stdout). vm_compute. reflexivity.
Defined.

Lemma string_app_assoc (a b c : string) :
  ((a ++ b) ++ c)%string = (a ++ (b ++ c))%string.
Proof.
  induction a as [|x a IH]; simpl; congruence.
Qed.

Lemma join_app (a b : list string) :
  a <> [] -> b <> [] ->
  PyLines.join (a ++ b)
  = (PyLines.join a ++ String PyLines.newline (PyLines.join b))%string.
Proof.
  intros Ha Hb. induction a as [|x a IH]; [congruence|].
  destruct a as [|y a'].
  - simpl app. rewrite join_cons by assumption. reflexivity.
  - simpl app in *. rewrite join_cons by discriminate.
    rewrite IH by discriminate. rewrite (join_cons x) by discriminate.
    rewrite !string_app_assoc. reflexivity.
Qed.

Lemma string_app_empty_r (s : string) : (s ++ "")%string = s.
Proof.
  induction s as [|c t IH]; simpl; congruence.
Qed.

(** X5. The text that is found is a piece of the output, character for
    character: what the script parses is never anything but a contiguous
    part of what the CLI printed. *)
Theorem extract_json_contiguous (stdout json_str : string) :
  PyLines.extract_json stdout = Some json_str ->
  exists before after : string,
    stdout = (before ++ json_str ++ after)%string.
Proof.
  intros H.
  destruct (output_lines_cases (PyLines.split stdout))
    as [Hall | [Hopen | (pre & first & mid & last & post & Hs & Hpre & Hf & Hmid & Hl)]].
  - rewrite extract_json_not_found in H by (now left). discriminate H.
  - rewrite extract_json_not_found in H by (now right). discriminate H.
  - rewrite (extract_json_found _ _ _ _ _ _ Hs Hpre Hf Hmid Hl) in H.
    injection H as <-.
    set (body := first :: mid ++ [last]).
    assert (Hlines : PyLines.split stdout = pre ++ body ++ post).
    { rewrite Hs. unfold body. simpl. now rewrite <- app_assoc. }
    assert (Hbody : body <> []) by discriminate.
    rewrite <- (join_split stdout), Hlines. clearbody body.
    destruct pre as [|p pre'], post as [|q post'].
    + exists "", "". rewrite app_nil_r. cbn [app append].
      now rewrite string_app_empty_r.
    + exists "", (String PyLines.newline (PyLines.join (q :: post'))).
      cbn [app append]. now rewrite join_app by (assumption || discriminate).
    + exists (PyLines.join (p :: pre') ++ String PyLines.newline "")%string, "".
      rewrite app_nil_r, string_app_empty_r.
      rewrite join_app by (assumption || discriminate).
      rewrite !string_app_assoc. reflexivity.
    + exists (PyLines.join (p :: pre') ++ String PyLines.newline "")%string,
             (String PyLines.newline (PyLines.join (q :: post'))).
      assert (Hbp : body ++ q :: post' <> []) by (destruct body; discriminate).
      rewrite join_app by (assumption || discriminate).
      rewrite (join_app body) by (assumption || discriminate).
      rewrite !string_app_assoc. reflexivity.
Qed.

Lemma extract_json_contiguous_witness :
  exists json_str before after : string,
    PyLines.extract_json sample_stdout = Some json_str
    /\ sample_stdout = (before ++ json_str ++ after)%string.
Proof.
  destruct (PyLines.extract_json sample_stdout) as [json_str|] eqn:E.
  - destruct (extract_json_contiguous sample_stdout json_str E)
      as (before & after & H).
    exists json_str, before, after. split; [reflexivity | exact H].
  - vm_compute in E. discriminate E.
Defined.

(** ** One script after another *)

Lemma existsb_str_eq_app_other (arn x : string) (rs : list json) :
  String.eqb arn x = false ->
  existsb (str_eq arn) (rs ++ [JStr x]) = existsb (str_eq arn) rs.
Proof.
  intros Hne. rewrite existsb_app. simpl. rewrite Hne. now rewrite !orb_false_r.
Qed.

Section OtherResource.

Variable is_target : json -> result bool.
Variable arn x : string.
Hypothesis arn_x : String.eqb arn x = false.

(** A statement to which another ARN was appended gets the same answer. *)
Lemma ensure_resource_extended (d : obj) (rs : list json) :
  resources d = JArr rs ->
  printed (ensure_resource arn (set "Resource" (JArr (rs ++ [JStr x])) d))
  = printed (ensure_resource arn d).
Proof.
  intros Hrs. unfold printed, ensure_resource.
  rewrite resources_set_resource, Hrs. simpl py_in.
  rewrite (existsb_str_eq_app_other _ _ _ arn_x).
  destruct (existsb (str_eq arn) rs); reflexivity.
Qed.

Lemma for_statement_extended (l l' : list json) :
  Forall2 (resource_extended_by x) l l' ->
  loop_message (for_statement is_target arn l')
  = loop_message (for_statement is_target arn l).
Proof.
  intros H. induction H as [|s s' l l' Hs Hl IH]; [reflexivity|].
  destruct Hs as [-> | (d & rs & -> & Hrs & ->)].
  - simpl. destruct (as_dict s) as [d|e]; simpl; [|reflexivity].
    destruct (is_target (actions d)) as [[|]|e]; simpl; [| |reflexivity].
    + destruct (ensure_resource arn d) as [[s1 m1]|e]; reflexivity.
    + unfold loop_message in IH.
      destruct (for_statement is_target arn l') as [[[l1 m1]|]|e1],
               (for_statement is_target arn l) as [[[l2 m2]|]|e2];
        simpl in *; congruence.
  - simpl. rewrite actions_set_resource.
    destruct (is_target (actions d)) as [[|]|e]; simpl; [| |reflexivity].
    + pose proof (ensure_resource_extended d rs Hrs) as He.
      unfold printed in He.
      destruct (ensure_resource arn (set "Resource" (JArr (rs ++ [JStr x])) d))
        as [[s1 m1]|e1],
        (ensure_resource arn d) as [[s2 m2]|e2]; simpl in *; congruence.
    + unfold loop_message in IH.
      destruct (for_statement is_target arn l') as [[[l1 m1]|]|e1],
               (for_statement is_target arn l) as [[[l2 m2]|]|e2];
        simpl in *; congruence.
Qed.

End OtherResource.

Lemma for_statement_app_no_match (is_target : json -> result bool)
      (arn : string) (l : list json) (s : json) :
  statement_matches is_target s = Ok false ->
  loop_message (for_statement is_target arn (l ++ [s]))
  = loop_message (for_statement is_target arn l).
Proof.
  intros Hs. induction l as [|a l IH].
  - simpl. unfold statement_matches in Hs.
    destruct (as_dict s) as [d|e]; simpl in *; [|discriminate].
    now rewrite Hs.
  - simpl. destruct (as_dict a) as [d|e]; simpl; [|reflexivity].
    destruct (is_target (actions d)) as [[|]|e]; simpl; [| |reflexivity].
    + destruct (ensure_resource arn d) as [[s1 m1]|e]; reflexivity.
    + unfold loop_message in IH.
      destruct (for_statement is_target arn (l ++ [s])) as [[[l1 m1]|]|e1],
               (for_statement is_target arn l) as [[[l2 m2]|]|e2];
        simpl in *; congruence.
Qed.

(** What a script prints on a document whose [Statement] is a list. *)
Lemma printed_run_list (sc : script) (doc : obj) (l : list json) :
  get "Statement" doc = Some (JArr l) ->
  printed (run sc (JObj doc))
  = report sc (loop_message
                 (for_statement (rule_match sc) (rule_resource sc) l)).
Proof.
  intros G.
  destruct sc; simpl;
    unfold update_policy, update_telnyx_policy, update_short_urls_policy;
    rewrite scan_get_statement; unfold get_default; rewrite G; simpl;
    match goal with
    | |- context [for_statement ?t ?a l] =>
        destruct (for_statement t a l) as [[[l1 m1]|]|e1]; simpl;
          try reflexivity
    end.
  now rewrite G.
Qed.

Lemma resource_other (A B : script) :
  A <> B -> String.eqb (rule_resource A) (rule_resource B) = false.
Proof.
  destruct A, B; intros H; try congruence; reflexivity.
Qed.

Lemma Forall2_same (A : Type) (R : A -> A -> Prop) (l : list A) :
  (forall a, R a a) -> Forall2 R l l.
Proof.
  intros HR. induction l; constructor; auto.
Qed.

Lemma new_statement_not_secretsmanager :
  statement_matches is_secretsmanager new_statement = Ok false.
Proof.
  vm_compute. reflexivity.
Qed.

(** What script [A] prints is the same before and after a run of another
    script [B]. *)
Lemma printed_after_other_script (A B : script) (D D' : json) (m : message) :
  A <> B ->
  run B D = Ok (D', m) ->
  printed (run A D') = printed (run A D).
Proof.
  intros Hne Hrun.
  assert (Happly : apply B D = Ok (D', changed m)).
  { unfold apply. now rewrite Hrun. }
  destruct (apply_shape _ _ _ _ Happly)
    as [-> | [(doc & pre & d & rs & post & -> & G & _ & _ & Hrs & ->)
             | (-> & doc & stmts & -> & G & ->)]].
  - reflexivity.
  - rewrite (printed_run_list A _ _ (get_set_same _ _ _)).
    rewrite (printed_run_list A _ _ G). f_equal.
    apply for_statement_extended with (x := rule_resource B).
    + now apply resource_other.
    + apply Forall2_app.
      * apply Forall2_same. intros a. now left.
      * constructor.
        -- right. exists d, rs. auto.
        -- apply Forall2_same. intros a. now left.
  - rewrite (printed_run_list A _ _ (get_set_same _ _ _)).
    rewrite (printed_run_list A _ _ G). f_equal.
    apply for_statement_app_no_match.
    destruct A; try congruence; apply new_statement_not_secretsmanager.
Qed.

(** When a script reports that the ARN is already there, the document it
    hands on is the one it read. *)
Lemma already_present_unchanged (sc : script) (D D' : json) :
  run sc D = Ok (D', AlreadyPresent) -> D' = D.
Proof.
  intros H.
  destruct (run_inv _ _ _ _ H)
    as [Hscan | [(_ & E & _) | (_ & E & _)]]; try discriminate E.
  destruct (scan_found _ _ _ _ _ Hscan)
    as (doc & pre & d & s' & post & -> & G & -> & _ & _ & He).
  destruct (ensure_resource_cases _ _ _ _ He)
    as [(_ & -> & _) | (rs & E & _)]; [|discriminate E].
  now rewrite (set_get_same _ _ _ G).
Qed.

(** After a run that printed something, the script finds its ARN. *)
Lemma run_again (sc : script) (D D' : json) (m : message) :
  run sc D = Ok (D', m) ->
  m <> NoMessage ->
  run sc D' = Ok (D', AlreadyPresent).
Proof.
  intros Hrun Hm.
  destruct (run_inv _ _ _ _ Hrun)
    as [Hscan | [(_ & -> & _)
                | (-> & -> & Hscan & doc & stmts & -> & G & ->)]].
  - apply scan_again in Hscan. now apply run_found.
  - congruence.
  - destruct (scan_not_found _ _ _ _ Hscan)
      as (_ & doc0 & stmts0 & E & Hiter & Hall).
    injection E as <-. unfold get_default in Hiter. rewrite G in Hiter.
    apply (py_iter_list _ _ _ eq_refl) in Hiter. subst stmts0.
    destruct new_statement_recognised as (d & -> & Hd & He).
    rewrite (run_at_first_match UpdateShortUrlsPolicy _ stmts [] d).
    + simpl. rewrite He. simpl. now rewrite set_set.
    + apply get_set_same.
    + exact Hall.
    + exact Hd.
Qed.

Lemma printed_ok_inv (r : result (json * message)) (m : message) :
  printed r = Ok m -> exists D, r = Ok (D, m).
Proof.
  destruct r as [[D m']|e]; simpl; [|discriminate].
  intros H. injection H as ->. now exists D.
Qed.

(** X6. What a script reports does not depend on whether another of the
    scripts has run in between: the three scripts do not disturb each
    other's matching statement, resource or error. *)
Theorem scripts_independent (A B : script) (D D' : json) (m : message) :
  A <> B ->
  run B D = Ok (D', m) ->
  printed (run A D') = printed (run A D).
Proof.
  exact (printed_after_other_script A B D D' m).
Qed.

Lemma scripts_independent_witness :
  run UpdateShortUrlsPolicy scenario1 = Ok
    (JObj (policy_fields
             [ logs_statement; JObj (secret_fields (JArr [ JStr foo_arn ]));
               new_statement ]),
     CreatedStatement)
  /\ printed (run UpdatePolicy
                (JObj (policy_fields
                         [ logs_statement;
                           JObj (secret_fields (JArr [ JStr foo_arn ]));
                           new_statement ])))
     = printed (run UpdatePolicy scenario1).
Proof.
  assert (H : run UpdateShortUrlsPolicy scenario1 = Ok
    (JObj (policy_fields
             [ logs_statement; JObj (secret_fields (JArr [ JStr foo_arn ]));
               new_statement ]),
     CreatedStatement)) by (vm_compute; reflexivity).
  split; [exact H|].
  apply (scripts_independent UpdatePolicy UpdateShortUrlsPolicy scenario1 _
           CreatedStatement); [discriminate | exact H].
Defined.

(** X7. A grant survives the other scripts: once a script has added or
    found its ARN, it still finds it, and changes nothing, after any
    successful run of any of the three scripts. *)
Theorem grant_survives (A B : script) (D0 D1 D2 : json) (m1 m2 : message) :
  run A D0 = Ok (D1, m1) ->
  m1 <> NoMessage ->
  run B D1 = Ok (D2, m2) ->
  run A D2 = Ok (D2, AlreadyPresent).
Proof.
  intros HA Hm HB.
  pose proof (run_again _ _ _ _ HA Hm) as Hagain.
  assert (HAB : A = B \/ A <> B) by (destruct A, B; auto; right; discriminate).
  destruct HAB as [<- | Hne].
  - rewrite Hagain in HB. injection HB as <- <-. exact Hagain.
  - pose proof (printed_after_other_script _ _ _ _ _ Hne HB) as Hp.
    rewrite Hagain in Hp. simpl in Hp.
    destruct (printed_ok_inv _ _ Hp) as [D3 H3].
    pose proof (already_present_unchanged _ _ _ H3) as ->. exact H3.
Qed.

Lemma grant_survives_witness :
  exists D2 : json,
    run UpdateTelnyxPolicy scenario1_patched = Ok (D2, Added)
    /\ run UpdatePolicy D2 = Ok (D2, AlreadyPresent).
Proof.
  eexists. split; [vm_compute; reflexivity|].
  apply (grant_survives UpdatePolicy UpdateTelnyxPolicy scenario1
           scenario1_patched _ Added Added).
  - vm_compute. reflexivity.
  - discriminate.
  - vm_compute. reflexivity.
Defined.

(** ** Statements before and after the one that is found *)

Lemma for_statement_error (is_target : json -> result bool) (arn : string)
      (pre post : list json) (x : json) (e : py_error) :
  Forall (fun s => statement_matches is_target s = Ok false) pre ->
  statement_matches is_target x = Err e ->
  for_statement is_target arn (pre ++ x :: post) = Err e.
Proof.
  intros Hpre Hx. induction Hpre as [|s pre Hs Hpre IH]; simpl.
  - unfold statement_matches in Hx.
    destruct (as_dict x) as [d|e']; simpl in *; [now rewrite Hx | congruence].
  - unfold statement_matches in Hs.
    destruct (as_dict s); simpl in *; [|discriminate].
    rewrite Hs. simpl. now rewrite IH.
Qed.

(** X8. An element of [Statement] that cannot be examined (it is not an
    object, or its [Action] is null, a boolean or a number) stops the script
    with the exception it raises when the loop reaches it before any
    matching statement: nothing is handed on, even if a matching statement
    follows. *)
Theorem statement_error_aborts (sc : script) (doc : obj)
        (pre post : list json) (x : json) (e : py_error) :
  get "Statement" doc = Some (JArr (pre ++ x :: post)) ->
  Forall (fun s => statement_matches (rule_match sc) s = Ok false) pre ->
  statement_matches (rule_match sc) x = Err e ->
  run sc (JObj doc) = Err e.
Proof.
  intros G Hpre Hx.
  pose proof (for_statement_error _ (rule_resource sc) _ post _ _ Hpre Hx) as H.
  destruct sc; simpl in *;
    unfold update_policy, update_telnyx_policy, update_short_urls_policy;
    rewrite scan_get_statement; unfold get_default; rewrite G; simpl;
    now rewrite H.
Qed.

Lemma statement_error_aborts_witness :
  run UpdateTelnyxPolicy
      (JObj (policy_fields
               [ logs_statement; JObj [("Action", JNull)];
                 JObj (secret_fields (JArr [JStr foo_arn])) ]))
  = Err TypeError.
Proof.
  apply (statement_error_aborts UpdateTelnyxPolicy
           (policy_fields
              [ logs_statement; JObj [("Action", JNull)];
                JObj (secret_fields (JArr [JStr foo_arn])) ])
           [logs_statement] [JObj (secret_fields (JArr [JStr foo_arn]))]
           (JObj [("Action", JNull)]) TypeError).
  - reflexivity.
  - apply (logs_statement_no_match UpdateTelnyxPolicy).
  - reflexivity.
Defined.

(** X9. The loop stops at the first matching statement: what comes after it
    in [Statement] - other matching statements, values that are not even
    objects - has no influence on what the script reports. *)
Theorem later_statements_ignored (sc : script) (doc : obj)
        (pre post post' : list json) (d : obj) :
  Forall (fun s => statement_matches (rule_match sc) s = Ok false) pre ->
  statement_matches (rule_match sc) (JObj d) = Ok true ->
  printed (run sc (JObj (set "Statement" (JArr (pre ++ JObj d :: post')) doc)))
  = printed (run sc (JObj (set "Statement" (JArr (pre ++ JObj d :: post)) doc))).
Proof.
  intros Hpre Hd.
  rewrite (run_at_first_match sc _ pre post' d (get_set_same _ _ _) Hpre Hd).
  rewrite (run_at_first_match sc _ pre post d (get_set_same _ _ _) Hpre Hd).
  destruct (ensure_resource (rule_resource sc) d) as [[s' m]|e]; reflexivity.
Qed.

Lemma later_statements_ignored_witness :
  printed (run UpdatePolicy
             (JObj (set "Statement"
                      (JArr ([logs_statement]
                               ++ JObj (secret_fields (JArr [JStr foo_arn]))
                               :: [JNull; JNum 3]))
                      (policy_fields []))))
  = printed (run UpdatePolicy
               (JObj (set "Statement"
                        (JArr ([logs_statement]
                                 ++ JObj (secret_fields (JArr [JStr foo_arn]))
                                 :: []))
                        (policy_fields [])))).
Proof.
  apply (later_statements_ignored UpdatePolicy (policy_fields [])
           [logs_statement] [] [JNull; JNum 3]
           (secret_fields (JArr [JStr foo_arn]))).
  - apply (logs_statement_no_match UpdatePolicy).
  - reflexivity.
Defined.

(** X10. When the [Resource] of the matching statement is neither a list
    nor a string: null, a boolean or a number raises [TypeError] at the
    membership test; an object is searched by key, so that the script
    reports the ARN as present when it is a key of [Resource] and fails on
    [append] with [AttributeError] when it is not.  In no case is a changed
    document handed on. *)
Theorem resource_not_a_list (sc : script) (doc : obj) (pre post : list json)
        (d : obj) (v : json) :
  get "Statement" doc = Some (JArr (pre ++ JObj d :: post)) ->
  Forall (fun s => statement_matches (rule_match sc) s = Ok false) pre ->
  statement_matches (rule_match sc) (JObj d) = Ok true ->
  get "Resource" d = Some v ->
  (v = JNull \/ (exists b, v = JBool b) \/ (exists z, v = JNum z) ->
   run sc (JObj doc) = Err TypeError)
  /\ (forall o : obj,
         v = JObj o ->
         run sc (JObj doc)
         = if existsb (fun kv => String.eqb (rule_resource sc) (fst kv)) o
           then Ok (JObj doc, AlreadyPresent)
           else Err AttributeError).
Proof.
  intros G Hpre Hd Hv.
  rewrite (run_at_first_match sc _ _ _ _ G Hpre Hd).
  unfold ensure_resource, resources, get_default. rewrite Hv. split.
  - intros [-> | [[b ->] | [z ->]]]; reflexivity.
  - intros o ->. simpl.
    destruct (existsb (fun kv => String.eqb (rule_resource sc) (fst kv)) o);
      simpl; [|reflexivity].
    now rewrite (set_get_same _ _ _ G).
Qed.

Lemma resource_not_a_list_witness :
  run UpdatePolicy
      (JObj (policy_fields [ logs_statement; JObj (secret_fields JNull) ]))
  = Err TypeError.
Proof.
  apply (proj1 (resource_not_a_list UpdatePolicy
                  (policy_fields [logs_statement; JObj (secret_fields JNull)])
                  [logs_statement] [] (secret_fields JNull) JNull
                  eq_refl (logs_statement_no_match UpdatePolicy)
                  eq_refl eq_refl)).
  now left.
Defined.

(** ** The scripts from the answer of the CLI on *)

(** X11. When the parsed output has no [PolicyDocument] key, the default
    is the empty object: [update-telnyx-policy.py] stops with its
    no-statement exit and [update-short-urls-policy.py] with a [KeyError],
    both without calling [put-role-policy]; [update-policy.py] prints the
    empty object as the policy. *)
Theorem missing_policy_document
        (json_loads : string -> option json) (json_dumps : json -> string)
        (put_role_policy : string -> completed)
        (loads_unquote : string -> option json)
        (result : completed) (json_str : string) (data : obj) :
  returncode result = 0%Z ->
  PyLines.extract_json (stdout result) = Some json_str ->
  json_loads json_str = Some (JObj data) ->
  get "PolicyDocument" data = None ->
  update_telnyx_policy_script json_loads json_dumps put_role_policy result
  = (None, PatchStopped NoStatementExit)
  /\ update_short_urls_policy_script json_loads json_dumps put_role_policy result
     = (None, PatchStopped KeyError)
  /\ update_policy_script loads_unquote (JObj data)
     = Printed (JObj []) NoMessage.
Proof.
  intros Hrc Hex Hloads Hget.
  unfold update_telnyx_policy_script, update_short_urls_policy_script,
    cli_script, update_policy_script, policy_document, get_default.
  rewrite Hrc, Hex, Hloads. simpl. rewrite Hget. simpl. auto.
Qed.

Lemma missing_policy_document_witness :
  update_telnyx_policy_script
    (fun _ => Some (JObj [("RoleName", JStr "mobile-auth-lambda-role")]))
    py_repr (fun _ => {| returncode := 0; stdout := ""; stderr := "" |})
    {| returncode := 0; stdout := sample_stdout; stderr := "" |}
  = (None, PatchStopped NoStatementExit).
Proof.
  destruct (PyLines.extract_json sample_stdout) as [json_str|] eqn:E.
  - exact (proj1 (missing_policy_document
                    (fun _ => Some (JObj [("RoleName", JStr "mobile-auth-lambda-role")]))
                    py_repr
                    (fun _ => {| returncode := 0; stdout := ""; stderr := "" |})
                    (fun _ => None)
                    {| returncode := 0; stdout := sample_stdout; stderr := "" |}
                    json_str [("RoleName", JStr "mobile-auth-lambda-role")]
                    eq_refl E eq_refl eq_refl)).
  - vm_compute in E. discriminate E.
Defined.

(** X12. Whatever [update-telnyx-policy.py] or
    [update-short-urls-policy.py] passes to [put-role-policy] is the
    serialisation of a document in which the script's own loop finds the ARN
    in the first matching statement (a further run would change nothing);
    and the call is made only when the first CLI call returned 0. *)
Theorem written_document_grants
        (json_loads : string -> option json) (json_dumps : json -> string)
        (put_role_policy : string -> completed)
        (sc : script) (result : completed) (policy_json : string)
        (e : ending) :
  sc <> UpdatePolicy ->
  cli_script json_loads json_dumps put_role_policy (run sc) result
  = (Some policy_json, e) ->
  returncode result = 0%Z
  /\ (e = UpdateFailed \/ exists m, e = Updated m)
  /\ exists policy_doc : json,
       policy_json = json_dumps policy_doc
       /\ run sc policy_doc = Ok (policy_doc, AlreadyPresent).
Proof.
  intros Hsc H. unfold cli_script in H.
  destruct (returncode result =? 0)%Z eqn:Hrc; simpl in H; [|discriminate H].
  apply Z.eqb_eq in Hrc. split; [exact Hrc|].
  destruct (PyLines.extract_json (stdout result)) as [json_str|];
    [|discriminate H].
  destruct (json_loads json_str) as [data|]; [|discriminate H].
  destruct (policy_document data) as [policy_doc|e0]; simpl in H;
    [|discriminate H].
  destruct (run sc policy_doc) as [[policy_doc' m]|e0] eqn:Hrun;
    [|discriminate H].
  assert (Hm : m <> NoMessage).
  { intros ->.
    destruct (run_inv _ _ _ _ Hrun)
      as [Hscan | [(-> & _) | (_ & E & _)]];
      [|congruence|discriminate E].
    destruct (scan_found _ _ _ _ _ Hscan)
      as (doc & pre & d & s' & post & _ & _ & _ & _ & _ & He).
    destruct (ensure_resource_cases _ _ _ _ He)
      as [(E & _) | (rs & E & _)]; discriminate E. }
  pose proof (run_again _ _ _ _ Hrun Hm) as Hagain.
  destruct (returncode (put_role_policy (json_dumps policy_doc')) =? 0)%Z;
    simpl in H; injection H as <- <-.
  - split; [right; now exists m|]. now exists policy_doc'.
  - split; [now left|]. now exists policy_doc'.
Qed.

Lemma written_document_grants_witness :
  exists policy_doc : json,
    py_repr scenario3_patched = py_repr policy_doc
    /\ run UpdateShortUrlsPolicy policy_doc = Ok (policy_doc, AlreadyPresent).
Proof.
  assert (H : cli_script
                (fun _ => Some (JObj [("PolicyDocument", scenario3)]))
                py_repr
                (fun _ => {| returncode := 0; stdout := ""; stderr := "" |})
                (run UpdateShortUrlsPolicy)
                {| returncode := 0; stdout := sample_stdout; stderr := "" |}
              = (Some (py_repr scenario3_patched), Updated CreatedStatement))
    by (vm_compute; reflexivity).
  destruct (written_document_grants _ _ _ UpdateShortUrlsPolicy _ _ _
              ltac:(discriminate) H) as (_ & _ & policy_doc & Hjson & Hrun).
  exists policy_doc. split; assumption.
Defined.

(** ** No duplicate resources *)

Lemma NoDup_snoc (A : Type) (l : list A) (a : A) :
  NoDup l -> ~ In a l -> NoDup (l ++ [a]).
Proof.
  intros Hl Ha. induction Hl as [|x l Hx Hl IH]; simpl.
  - constructor; [intros [] | constructor].
  - constructor.
    + intros Hin. apply in_app_or in Hin. destruct Hin as [Hin | [-> | []]].
      * contradiction.
      * apply Ha. now left.
    + apply IH. intros Hin. apply Ha. now right.
Qed.

(** The document a script hands on, with what the membership test found. *)
Lemma run_shape (sc : script) (D D' : json) (m : message) :
  run sc D = Ok (D', m) ->
  D' = D
  \/ (exists doc pre d rs post,
        D = JObj doc
        /\ get "Statement" doc = Some (JArr (pre ++ JObj d :: post))
        /\ resources d = JArr rs
        /\ ~ In (JStr (rule_resource sc)) rs
        /\ D' = JObj (set "Statement"
                        (JArr (pre ++ JObj (set "Resource"
                                              (JArr (rs ++ [JStr (rule_resource sc)])) d)
                                   :: post))
                        doc))
  \/ (exists doc stmts,
         D = JObj doc
         /\ get "Statement" doc = Some (JArr stmts)
         /\ D' = JObj (set "Statement" (JArr (stmts ++ [new_statement])) doc)).
Proof.
  intros Hrun.
  destruct (run_inv _ _ _ _ Hrun)
    as [Hscan | [(_ & _ & -> & _)
                | (_ & _ & _ & doc & stmts & -> & G & ->)]].
  - destruct (scan_found _ _ _ _ _ Hscan)
      as (doc & pre & d & s' & post & -> & G & -> & _ & _ & He).
    destruct (ensure_resource_cases _ _ _ _ He)
      as [(_ & -> & _) | (rs & _ & Hrs & Hnot & ->)].
    + left. now rewrite (set_get_same _ _ _ G).
    + right. left. exists doc, pre, d, rs, post. repeat split; auto.
      intros Hin. apply existsb_str_eq in Hin. congruence.
  - now left.
  - right. right. exists doc, stmts. auto.
Qed.

(** X13. No script introduces a duplicate: if no statement of the document
    lists a resource twice, no statement of the document handed on does. *)
Theorem no_duplicate_resources (sc : script) (D D' : json) (m : message) :
  run sc D = Ok (D', m) ->
  Forall (fun s => NoDup (resource_list s)) (statements_of D) ->
  Forall (fun s => NoDup (resource_list s)) (statements_of D').
Proof.
  intros Hrun Hall.
  destruct (run_shape _ _ _ _ Hrun)
    as [-> | [(doc & pre & d & rs & post & -> & G & Hrs & Hnot & ->)
             | (doc & stmts & -> & G & ->)]].
  - exact Hall.
  - unfold statements_of in *. rewrite get_set_same. rewrite G in Hall.
    apply Forall_app in Hall. destruct Hall as [Hpre Hrest].
    inversion Hrest as [|? ? Hd Hpost]; subst.
    apply Forall_app. split; [exact Hpre|]. constructor; [|exact Hpost].
    simpl in *. rewrite resources_set_resource. rewrite Hrs in Hd. simpl in *.
    now apply NoDup_snoc.
  - unfold statements_of in *. rewrite get_set_same. rewrite G in Hall.
    apply Forall_app. split; [exact Hall|].
    constructor; [|constructor].
    vm_compute. constructor; [intros [] | constructor].
Qed.

Lemma no_duplicate_resources_witness :
  Forall (fun s => NoDup (resource_list s)) (statements_of scenario1_patched).
Proof.
  apply (no_duplicate_resources UpdatePolicy scenario1 scenario1_patched Added).
  - vm_compute. reflexivity.
  - repeat constructor; simpl; intuition discriminate.
Defined.

(** ** Warnings around the JSON object *)

(** X14. "Parse JSON, ignoring warnings": lines in front of the output that
    do not start with an opening brace change nothing, whether the object
    is found and which text is found. *)
Theorem leading_warnings_skipped (stdout stdout' : string)
        (warnings : list string) :
  PyLines.split stdout' = warnings ++ PyLines.split stdout ->
  Forall (fun line => PyLines.opens line = false) warnings ->
  PyLines.extract_json stdout' = PyLines.extract_json stdout.
Proof.
  intros Hs Hw.
  destruct (output_lines_cases (PyLines.split stdout))
    as [Hall | [(pre & first & rest & E & Hpre & Hf & Hrest)
               | (pre & first & mid & last & post & E & Hpre & Hf & Hmid & Hl)]].
  - rewrite (extract_json_not_found stdout) by (now left).
    apply extract_json_not_found. left. rewrite Hs.
    apply Forall_app. now split.
  - rewrite (extract_json_not_found stdout)
      by (right; exists pre, first, rest; auto).
    apply extract_json_not_found. right.
    exists (warnings ++ pre), first, rest. repeat split; auto.
    + rewrite Hs, E. now rewrite app_assoc.
    + apply Forall_app. now split.
  - rewrite (extract_json_found _ _ _ _ _ _ E Hpre Hf Hmid Hl).
    apply (extract_json_found _ (warnings ++ pre) mid post); auto.
    + rewrite Hs, E. now rewrite app_assoc.
    + apply Forall_app. now split.
Qed.

Lemma leading_warnings_skipped_witness :
  PyLines.extract_json sample_stdout
  = PyLines.extract_json (PyLines.join (tl sample_lines)).
Proof.
  apply (leading_warnings_skipped (PyLines.join (tl sample_lines))
           sample_stdout [hd "" sample_lines]).
  - vm_compute. reflexivity.
  - constructor; [vm_compute; reflexivity | constructor].
Defined.

(** X15. Once the object is found, nothing that the CLI prints after it
    matters: the text found in an output is the text found in any output
    that continues it with more lines. *)
Theorem trailing_lines_ignored (stdout stdout' json_str : string)
        (trailing : list string) :
  PyLines.split stdout' = PyLines.split stdout ++ trailing ->
  PyLines.extract_json stdout = Some json_str ->
  PyLines.extract_json stdout' = Some json_str.
Proof.
  intros Hs H.
  destruct (output_lines_cases (PyLines.split stdout))
    as [Hall | [Hopen
               | (pre & first & mid & last & post & E & Hpre & Hf & Hmid & Hl)]].
  - rewrite extract_json_not_found in H by (now left). discriminate H.
  - rewrite extract_json_not_found in H by (now right). discriminate H.
  - rewrite (extract_json_found _ _ _ _ _ _ E Hpre Hf Hmid Hl) in H.
    injection H as <-.
    apply (extract_json_found _ pre mid (post ++ trailing)); auto.
    rewrite Hs, E. rewrite <- app_assoc. simpl. f_equal. f_equal.
    rewrite <- app_assoc. reflexivity.
Qed.

Lemma trailing_lines_ignored_witness :
  exists json_str : string,
    PyLines.extract_json
      (PyLines.join (sample_lines ++ ["}"; "An error occurred"]))
    = Some json_str
    /\ PyLines.extract_json sample_stdout = Some json_str.
Proof.
  destruct (PyLines.extract_json sample_stdout) as [json_str|] eqn:E.
  - exists json_str. split; [|reflexivity].
    apply (trailing_lines_ignored sample_stdout _ json_str
             ["}"; "An error occurred"]).
    + vm_compute. reflexivity.
    + exact E.
  - vm_compute in E. discriminate E.
Defined.

(** A pretty-printed answer: the closing brace of the inner object, alone on
    its indented line, ends the text that is found. *)
Example indented_closing_brace_ends_object :
  PyLines.extract_json
    (PyLines.join [ "{"; "    PolicyDocument: {"; "        Statement: []";
                    "    }"; "}" ])
  = Some (PyLines.join [ "{"; "    PolicyDocument: {"; "        Statement: []";
                         "    }" ]).
Proof.
  vm_compute. reflexivity.
Qed.
